(** * Churn model: recency-weighted scorer and Monte Carlo forecaster

    A shallow embedding of [churn_model.py]:
    [predict_churn_risk_simplified_rnn] (the scorer) and
    [monte_carlo_churn_prediction] (the forecaster); of
    [suggest_intervention] of [intervention_strategy.py]; and of
    [generate_customer_events] of [data_simulator.py].

    Number model.  Python floats and numpy's float64 are read as exact real
    numbers ([R]): rounding is not modelled, and [np.exp] is the real
    exponential.  Integers are [Z], list positions and lengths are [nat].

    Library model.  [random] and [datetime] are not code of the repository:
    they are interfaces ([RandomSource], [DateTimeLib], [ClockLib]) and
    every general theorem holds for all their implementations.  One
    implementation of each is given below to run the code on concrete
    inputs. *)

From Stdlib Require Import String Ascii Bool ZArith List Reals Lra Lia.
Import ListNotations.

Open Scope R_scope.

(** ** Python and numpy primitives *)

(** [seq[start:]] for a Python list: a negative [start] counts from the end
    and is clipped at the front of the list, a start beyond the end gives
    the empty list. *)
Definition slice_from {A : Type} (start : Z) (l : list A) : list A :=
  let n := Z.of_nat (length l) in
  let s := if (start <? 0)%Z then Z.max 0 (n + start) else Z.min start n in
  skipn (Z.to_nat s) l.

(** [enumerate(l)] *)
Definition enumerate {A : Type} (l : list A) : list (nat * A) :=
  combine (seq 0 (length l)) l.

(** [y[-1] = v] on a non-empty list (the only place the code uses it). *)
Definition set_last (y : list R) (v : R) : list R :=
  match y with
  | [] => []
  | _ :: _ => removelast y ++ [v]
  end.

(** [np.linspace(start, stop, num)] with the default [endpoint=True]:
    [div = num - 1]; the samples are [arange(num) * step + start] with
    [step = delta / div] when [div > 0] (computed as [y / div * delta] when
    the step is zero) and [arange(num) * delta + start] otherwise; when
    [num > 1] the last sample is overwritten with [stop]. *)
Definition linspace (start stop : R) (num : nat) : list R :=
  let div := (num - 1)%nat in
  let delta := stop - start in
  let y := map INR (seq 0 num) in
  let y :=
    if (0 <? div)%nat then
      let step := delta / INR div in
      if Req_dec_T step 0
      then map (fun v => v / INR div * delta) y
      else map (fun v => v * step) y
    else map (fun v => v * delta) y in
  let y := map (fun v => v + start) y in
  if (1 <? num)%nat then set_last y stop else y.

(** The builtins [max(a, b)] and [min(a, b)]: the first argument is kept
    unless the second is strictly greater (resp. smaller). *)
Definition py_max (a b : R) : R := if Rlt_dec a b then b else a.
Definition py_min (a b : R) : R := if Rlt_dec b a then b else a.

(** ** Events *)

(** An event dictionary [{'date': ..., 'type': ...}]. *)
Record event : Type := mk_event { date : string; type : string }.

(** ** The scorer *)

(** One iteration of the scoring loop: the [if]/[elif] chain on
    [event['type']]; a type outside the chain leaves the score alone. *)
Definition score_event (score weight : R) (ev : event) : R :=
  if (type ev =? "inactivity")%string then score + 0.2 * weight
  else if (type ev =? "support_query")%string then score + 0.15 * weight
  else if (type ev =? "make_purchase")%string then score - 0.1 * weight
  else if (type ev =? "upgrade_plan")%string then score - 0.2 * weight
  else if ((type ev =? "login") || (type ev =? "view_feature"))%string
       then score - 0.05 * weight
  else score.

(** The running score after the loop over [enumerate(recent_events)]. *)
Definition running_score (recent_events : list event) : R :=
  let weights := linspace 0.1 1.0 (length recent_events) in
  fold_left (fun score '(i, ev) => score_event score (nth i weights 0) ev)
            (enumerate recent_events) 0.

Definition sigmoid (score : R) : R := 1 / (1 + exp (- score)).

Definition predict_churn_risk_simplified_rnn
  (event_sequence : list event) (customer_history_length : Z) : R :=
  let recent_events := slice_from (- customer_history_length) event_sequence in
  let score := running_score recent_events in
  let churn_prob := sigmoid score in
  py_min 1.0 (py_max 0.0 churn_prob).

(** The default [customer_history_length=30]. *)
Definition default_history_length : Z := 30.

Definition score_default (event_sequence : list event) : R :=
  predict_churn_risk_simplified_rnn event_sequence default_history_length.

(** ** Library interfaces *)

(** The exceptions the forecaster can meet. *)
Inductive exn : Type :=
| ValueError      (* [strptime] on a string that is not a date *)
| OverflowError   (* a date beyond [datetime.max] *)
| IndexError.     (* [random.choice] on an empty sequence *)

(** The module-level generator of [random]: [random.random()] returns a
    float in [0, 1), [_randbelow(n)] an integer below [n]. *)
Class RandomSource (G : Type) : Type := {
  random : G -> R * G;
  randbelow : nat -> G -> nat * G
}.

(** What the library promises of the draws.  Only the lemmas that show a
    run of the forecaster returns need it. *)
Class RandomSourceLaws (G : Type) {RS : RandomSource G} : Prop := {
  random_range : forall g, 0 <= fst (random g) < 1;
  randbelow_lt : forall n g, (0 < n)%nat -> (fst (randbelow n g) < n)%nat
}.

(** [datetime]: [strptime(s, '%Y-%m-%d')] ([None] for [ValueError]),
    [d + timedelta(days=1)] ([None] for [OverflowError]) and
    [d.strftime('%Y-%m-%d')]. *)
Class DateTimeLib (D : Type) : Type := {
  strptime : string -> option D;
  add_one_day : D -> option D;
  strftime : D -> string
}.

(** ** A state and exception monad for the forecaster *)

Inductive outcome (A : Type) : Type :=
| Ok (a : A)
| Raise (e : exn).
Arguments Ok {A} a.
Arguments Raise {A} e.

Definition M (G A : Type) : Type := G -> outcome (A * G).

Definition ret {G A : Type} (a : A) : M G A := fun g => Ok (a, g).

Definition bind {G A B : Type} (m : M G A) (k : A -> M G B) : M G B :=
  fun g => match m g with
           | Ok (a, g') => k a g'
           | Raise e => Raise e
           end.

Definition raise {G A : Type} (e : exn) : M G A := fun _ => Raise e.

Definition draw {G A : Type} (f : G -> A * G) : M G A := fun g => Ok (f g).

Definition or_raise {G A : Type} (o : option A) (e : exn) : M G A :=
  match o with
  | Some a => ret a
  | None => raise e
  end.

Declare Scope churn_scope.
Delimit Scope churn_scope with churn.
Notation "x <- m ;; k" := (bind m (fun x => k))
  (at level 61, m at next level, right associativity) : churn_scope.
Open Scope churn_scope.

(** ** The forecaster *)

(** The two keys of [customer_data] the forecaster reads. *)
Record customer : Type := mk_customer {
  events : list event;
  last_activity_date : string
}.

(** [np.mean] and [np.std] of a list; [None] stands for the [nan] they give
    on an empty list. *)
Definition sum_R (l : list R) : R := fold_right Rplus 0 l.

Definition np_mean (l : list R) : option R :=
  match l with
  | [] => None
  | _ :: _ => Some (sum_R l / INR (length l))
  end.

Definition np_std (l : list R) : option R :=
  match np_mean l with
  | None => None
  | Some m =>
      Some (sqrt (sum_R (map (fun x => Rsqr (Rabs (x - m))) l) / INR (length l)))
  end.

Section Forecaster.

Context {G : Type} {RS : RandomSource G}.
Context {D : Type} {DT : DateTimeLib D}.

(** [random.choice(seq)] is [seq[_randbelow(len(seq))]]. *)
Definition choice {A : Type} (seq : list A) : M G A :=
  k <- draw (randbelow (length seq)) ;;
  or_raise (nth_error seq k) IndexError.

(** The vocabulary of simulated activity. *)
Definition activity_types : list string :=
  ["login"; "view_feature"; "make_purchase"; "support_query"]%string.

(** The body of [for day_forecast in range(forecast_days)], run [days]
    times: one draw of [random.random()], an event appended to
    [simulated_events_for_forecast], the cursor date advanced. *)
Fixpoint simulate_days (current_risk : R) (days : nat)
    (sim_current_date : D) (simulated_events_for_forecast : list event)
  : M G (list event) :=
  match days with
  | O => ret simulated_events_for_forecast
  | S days' =>
      let activity_prob := 0.6 * (1 - current_risk) in
      u <- draw random ;;
      ev <- (if Rlt_dec u activity_prob
             then event_type <- choice activity_types ;;
                  ret (mk_event (strftime sim_current_date) event_type)
             else ret (mk_event (strftime sim_current_date) "inactivity")) ;;
      next_date <- or_raise (add_one_day sim_current_date) OverflowError ;;
      simulate_days current_risk days' next_date
                    (simulated_events_for_forecast ++ [ev])
  end.

(** One pass of the body of [for _ in range(num_simulations)]: the sample
    it appends to [churn_probabilities]. *)
Definition simulation (customer_data : customer) (current_risk : R)
    (forecast_days : Z) : M G R :=
  parsed <- or_raise (strptime (last_activity_date customer_data)) ValueError ;;
  sim_current_date <- or_raise (add_one_day parsed) OverflowError ;;
  simulated_events_for_forecast <-
    simulate_days current_risk (Z.to_nat forecast_days) sim_current_date [] ;;
  let full_event_sequence :=
    events customer_data ++ simulated_events_for_forecast in
  ret (score_default full_event_sequence).

Fixpoint simulations (customer_data : customer) (current_risk : R)
    (forecast_days : Z) (n : nat) (churn_probabilities : list R)
  : M G (list R) :=
  match n with
  | O => ret churn_probabilities
  | S n' =>
      sim_churn_prob <- simulation customer_data current_risk forecast_days ;;
      simulations customer_data current_risk forecast_days n'
                  (churn_probabilities ++ [sim_churn_prob])
  end.

(** [range(n)] of a Python int runs [Z.to_nat n] times: not at all when
    [n <= 0]. *)
Definition monte_carlo_churn_prediction (customer_data : customer)
    (num_simulations forecast_days : Z)
  : M G (option R * option R * list R) :=
  let current_risk := score_default (events customer_data) in
  churn_probabilities <-
    simulations customer_data current_risk forecast_days
                (Z.to_nat num_simulations) [] ;;
  ret (np_mean churn_probabilities, np_std churn_probabilities,
       churn_probabilities).

(** The third component of the returned tuple. *)
Definition samples (result : option R * option R * list R) : list R :=
  snd result.

End Forecaster.

(** ** An implementation of the date interface

    Dates of the proleptic Gregorian calendar between [datetime.min]
    (0001-01-01) and [datetime.max] (9999-12-31), for strings of ASCII
    characters.  [parse] follows the pattern [strptime] builds for
    ['%Y-%m-%d']: four digits, then [1[0-2]|0[1-9]|[1-9]], then
    [3[01]|[12]\d|0[1-9]|[1-9]| [1-9]], separated by dashes, with nothing
    left over; the fields must then make a date. *)
Module PyDate.

Record t : Type := mk { year : Z; month : Z; day : Z }.

Definition is_leap (y : Z) : bool :=
  ((y mod 4 =? 0) && (negb (y mod 100 =? 0) || (y mod 400 =? 0)))%Z.

Definition days_in_month (y m : Z) : Z :=
  if (m =? 2)%Z then (if is_leap y then 29 else 28)%Z
  else if ((m =? 4) || (m =? 6) || (m =? 9) || (m =? 11))%Z then 30%Z
  else 31%Z.

Definition MAXYEAR : Z := 9999.

Definition digit (c : ascii) : option Z :=
  let n := Z.of_nat (nat_of_ascii c) in
  if ((48 <=? n) && (n <=? 57))%Z then Some (n - 48)%Z else None.

(** [%Y]: four digits. *)
Definition year_field (cs : list ascii) : option Z :=
  match cs with
  | [a; b; c; d] =>
      match digit a, digit b, digit c, digit d with
      | Some a, Some b, Some c, Some d =>
          Some (1000 * a + 100 * b + 10 * c + d)%Z
      | _, _, _, _ => None
      end
  | _ => None
  end.

(** One or two digits giving a number between 1 and [hi]; with
    [blank = true] a space before one digit is accepted too ([%d]). *)
Definition small_field (blank : bool) (hi : Z) (cs : list ascii) : option Z :=
  match cs with
  | [a] =>
      match digit a with
      | Some n => if (1 <=? n)%Z then Some n else None
      | None => None
      end
  | [a; b] =>
      match digit a, digit b with
      | Some x, Some y =>
          let n := (10 * x + y)%Z in
          if ((1 <=? n) && (n <=? hi))%Z then Some n else None
      | None, Some y =>
          if blank && Ascii.eqb a " " && (1 <=? y)%Z then Some y else None
      | _, None => None
      end
  | _ => None
  end.

(** The characters before the first ['-'] and those after it. *)
Fixpoint break_dash (cs : list ascii) : list ascii * option (list ascii) :=
  match cs with
  | [] => ([], None)
  | c :: cs' =>
      if Ascii.eqb c "-" then ([], Some cs')
      else let '(field, rest) := break_dash cs' in (c :: field, rest)
  end.

(** The constructor of a date: the year is at least [MINYEAR = 1] and
    the day exists in the month. *)
Definition make (y m d : Z) : option t :=
  if ((1 <=? y) && (y <=? MAXYEAR) && (d <=? days_in_month y m))%Z
  then Some (mk y m d) else None.

Definition parse (s : string) : option t :=
  let '(ycs, rest) := break_dash (list_ascii_of_string s) in
  match rest with
  | None => None
  | Some rest =>
      let '(mcs, rest) := break_dash rest in
      match rest with
      | None => None
      | Some dcs =>
          match year_field ycs, small_field false 12 mcs,
                small_field true 31 dcs with
          | Some y, Some m, Some d => make y m d
          | _, _, _ => None
          end
      end
  end.

Definition tomorrow (x : t) : option t :=
  if (day x <? days_in_month (year x) (month x))%Z
  then Some (mk (year x) (month x) (day x + 1))
  else if (month x <? 12)%Z then Some (mk (year x) (month x + 1) 1)
  else if (year x <? MAXYEAR)%Z then Some (mk (year x + 1) 1 1)
  else None.

Definition digit_char (n : Z) : ascii := ascii_of_nat (48 + Z.to_nat n).

Definition two_digits (n : Z) : list ascii :=
  [digit_char (n / 10); digit_char (n mod 10)].

Definition format (x : t) : string :=
  string_of_list_ascii
    (two_digits (year x / 100) ++ two_digits (year x mod 100)
     ++ ["-"%char] ++ two_digits (month x)
     ++ ["-"%char] ++ two_digits (day x)).

End PyDate.

#[export] Instance py_datetime : DateTimeLib PyDate.t := {
  strptime := PyDate.parse;
  add_one_day := PyDate.tomorrow;
  strftime := PyDate.format
}.

(** ** An implementation of the random source

    A linear congruential generator on 31 bits: the state is the last
    value drawn. *)
Module Lcg.

Definition modulus : Z := 2147483648.

Definition next (s : Z) : Z := ((1103515245 * s + 12345) mod modulus)%Z.

Definition lcg_random (s : Z) : R * Z :=
  let s' := next s in (IZR s' / IZR modulus, s').

Definition lcg_randbelow (n : nat) (s : Z) : nat * Z :=
  let s' := next s in (Z.to_nat (s' mod Z.of_nat n), s').

End Lcg.

#[export] Instance lcg_source : RandomSource Z := {
  random := Lcg.lcg_random;
  randbelow := Lcg.lcg_randbelow
}.

(** The customer of the module's [__main__] block. *)
Definition dummy_customer_data : customer :=
  mk_customer
    [ mk_event "2024-06-01" "login";
      mk_event "2024-06-05" "inactivity";
      mk_event "2024-06-08" "view_feature";
      mk_event "2024-06-10" "inactivity";
      mk_event "2024-06-12" "support_query";
      mk_event "2024-06-15" "login" ]
    "2024-06-15".

(** ** The intervention table ([intervention_strategy.py]) *)



(** ** The event generator ([data_simulator.py]) *)

(** The clock and the date arithmetic [generate_customer_events] uses:
    [datetime.now()], which reads the world, and [d - timedelta(days=n)]
    ([None] for [OverflowError]). *)
Class ClockLib (G D : Type) : Type := {
  now : G -> D * G;
  minus_days : D -> Z -> option D
}.

Section DataSimulator.

Context {G : Type} {RS : RandomSource G}.
Context {D : Type} {DT : DateTimeLib D} {CL : ClockLib G D}.

(** The vocabulary of generated activity. *)
Definition generated_activity_types : list string :=
  ["login"; "view_feature"; "make_purchase"; "support_query";
   "upgrade_plan"]%string.

(** The body of [for day in range(num_days)], for the [remaining] values of
    [day] from [day] on, with the loop's variables [current_date], [events],
    [churned] and [churn_day]; the result is the tuple returned after the
    loop.  [random.random()] of the churn test is drawn only when [churned]
    is false ([not churned and ...]); a churn ends the loop ([break]). *)
Fixpoint generate_days (num_days : Z) (churn_propensity activity_base_rate : R)
    (remaining : nat) (day : Z) (current_date : D) (events : list event)
    (churned : bool) (churn_day : option Z)
  : M G (list event * bool * option Z) :=
  match remaining with
  | O => ret (events, churned, churn_day)
  | S remaining' =>
      let activity_prob := activity_base_rate * (1 - churn_propensity) in
      u <- draw random ;;
      ev <- (if Rlt_dec u activity_prob
             then event_type <- choice generated_activity_types ;;
                  ret (mk_event (strftime current_date) event_type)
             else ret (mk_event (strftime current_date) "inactivity")) ;;
      let events := events ++ [ev] in
      let daily_churn_prob := churn_propensity / IZR num_days in
      churns <- (if churned then ret false
                 else v <- draw random ;;
                      ret (if Rlt_dec v daily_churn_prob then true else false)) ;;
      if churns : bool then
        ret (events ++ [mk_event (strftime current_date) "churned"],
             true, Some day)
      else
        next_date <- or_raise (add_one_day current_date) OverflowError ;;
        generate_days num_days churn_propensity activity_base_rate
                      remaining' (day + 1)%Z next_date events churned churn_day
  end.

Definition generate_customer_events (num_days : Z)
    (churn_propensity activity_base_rate : R)
  : M G (list event * bool * option Z) :=
  today <- draw now ;;
  current_date <- or_raise (minus_days today num_days) OverflowError ;;
  generate_days num_days churn_propensity activity_base_rate
                (Z.to_nat num_days) 0%Z current_date [] false None.

End DataSimulator.

(** The default [activity_base_rate=0.5]. *)
Definition default_activity_base_rate : R := 0.5.

(** ** An implementation of the clock

    A clock stopped on 2024-06-15 on the calendar of [PyDate]; the world is
    the state of the generator. *)
Module PyClock.

Definition yesterday (x : PyDate.t) : option PyDate.t :=
  if (1 <? PyDate.day x)%Z
  then Some (PyDate.mk (PyDate.year x) (PyDate.month x) (PyDate.day x - 1))
  else if (1 <? PyDate.month x)%Z
  then Some (PyDate.mk (PyDate.year x) (PyDate.month x - 1)
               (PyDate.days_in_month (PyDate.year x) (PyDate.month x - 1)))
  else if (1 <? PyDate.year x)%Z
  then Some (PyDate.mk (PyDate.year x - 1) 12 31)
  else None.

Fixpoint iterate (f : PyDate.t -> option PyDate.t) (n : nat) (x : PyDate.t)
  : option PyDate.t :=
  match n with
  | O => Some x
  | S n' => match f x with
            | Some y => iterate f n' y
            | None => None
            end
  end.

Definition minus (x : PyDate.t) (n : Z) : option PyDate.t :=
  if (0 <=? n)%Z then iterate yesterday (Z.to_nat n) x
  else iterate PyDate.tomorrow (Z.to_nat (- n)) x.

Definition today : PyDate.t := PyDate.mk 2024 6 15.

End PyClock.

(** The clock stopped at [d]. *)
Definition clock_at (d : PyDate.t) : ClockLib Z PyDate.t := {|
  now := fun s => (d, s);
  minus_days := PyClock.minus
|}.

#[export] Instance stopped_clock : ClockLib Z PyDate.t :=
  clock_at PyClock.today.

(** ** Notions used in the statements *)

(** The signed magnitude of an event: what the loop adds per unit of
    weight. *)
Definition magnitude (ev : event) : R := score_event 0 1 ev.

(** The weight of the event at position [i] among [n] considered events. *)
Definition weight_at (n i : nat) : R :=
  match n with
  | O => 0
  | 1%nat => 0.1
  | S (S k) => 0.1 + INR i * (0.9 / INR (S k))
  end.

(** The sum of [magnitude * W position] over the events from position [k]. *)
Fixpoint wsum (W : nat -> R) (k : nat) (es : list event) : R :=
  match es with
  | [] => 0
  | e :: t => magnitude e * W k + wsum W (S k) t
  end.

(** The sum of the magnitudes, and the sum of [position * magnitude] over
    the events from position [k]. *)
Fixpoint total (es : list event) : R :=
  match es with
  | [] => 0
  | e :: t => magnitude e + total t
  end.

Fixpoint moment (k : nat) (es : list event) : R :=
  match es with
  | [] => 0
  | e :: t => INR k * magnitude e + moment (S k) t
  end.

(** The event types a simulated day can take. *)
Definition simulated_types : list string :=
  ["login"; "view_feature"; "make_purchase"; "support_query";
   "inactivity"]%string.

(** The date [k] days after [d], when all the days in between exist. *)
Fixpoint days_ahead {D : Type} {DT : DateTimeLib D} (k : nat) (d : D)
  : option D :=
  match k with
  | O => Some d
  | S k' => match add_one_day d with
            | Some d' => days_ahead k' d'
            | None => None
            end
  end.

(** The event types a generated day can take, and the marker that ends a
    churned customer's events. *)
Definition generated_types : list string :=
  ["login"; "view_feature"; "make_purchase"; "support_query";
   "upgrade_plan"; "inactivity"]%string.

Definition churn_marker (stamp : string) : event := mk_event stamp "churned".

(** The event types of the scorer's [if]/[elif] chain. *)
Definition scored_types : list string :=
  ["inactivity"; "support_query"; "make_purchase"; "upgrade_plan";
   "login"; "view_feature"]%string.

(** * Properties *)

(** ** The two implementations *)

Lemma lcg_next_range (s : Z) : (0 <= Lcg.next s < Lcg.modulus)%Z.
Proof. unfold Lcg.next. apply Z.mod_pos_bound. reflexivity. Qed.

Lemma lcg_random_range (s : Z) : 0 <= fst (Lcg.lcg_random s) < 1.
Proof.
  unfold Lcg.lcg_random; cbn [fst].
  pose proof (lcg_next_range s) as [Hlo Hhi].
  apply IZR_le in Hlo. apply IZR_lt in Hhi.
  assert (Hm : 0 < IZR Lcg.modulus) by (apply IZR_lt; reflexivity).
  split.
  - apply Rmult_le_pos; [exact Hlo | left; apply Rinv_0_lt_compat, Hm].
  - apply (Rmult_lt_reg_r (IZR Lcg.modulus)); [exact Hm |].
    unfold Rdiv. rewrite Rmult_assoc, Rinv_l, Rmult_1_r, Rmult_1_l;
      [exact Hhi | lra].
Qed.

Lemma lcg_randbelow_lt (n : nat) (s : Z) :
  (0 < n)%nat -> (fst (Lcg.lcg_randbelow n s) < n)%nat.
Proof.
  intros Hn. unfold Lcg.lcg_randbelow; cbn [fst].
  pose proof (Z.mod_pos_bound (Lcg.next s) (Z.of_nat n)). lia.
Qed.

#[export] Instance lcg_laws : RandomSourceLaws Z := {
  random_range := lcg_random_range;
  randbelow_lt := lcg_randbelow_lt
}.

Example parse_dummy :
  PyDate.parse "2024-06-15" = Some (PyDate.mk 2024 6 15).
Proof. reflexivity. Qed.

Example parse_short_fields :
  PyDate.parse "2024-6- 5" = Some (PyDate.mk 2024 6 5).
Proof. reflexivity. Qed.

Example parse_no_such_day : PyDate.parse "2023-02-29" = None.
Proof. reflexivity. Qed.

Example tomorrow_leap :
  PyDate.tomorrow (PyDate.mk 2024 2 28) = Some (PyDate.mk 2024 2 29).
Proof. reflexivity. Qed.

Example format_dummy : PyDate.format (PyDate.mk 2024 6 16) = "2024-06-16"%string.
Proof. reflexivity. Qed.

(** ** Slicing *)

Lemma slice_from_zero {A : Type} (l : list A) : slice_from 0 l = l.
Proof.
  unfold slice_from. cbn [Z.ltb Z.compare].
  replace (Z.to_nat (Z.min 0 (Z.of_nat (length l)))) with 0%nat by lia.
  reflexivity.
Qed.

(** With a positive window [w], [seq[-w:]] drops all but the last [w]
    elements. *)
Lemma slice_from_window {A : Type} (w : Z) (l : list A) :
  (1 <= w)%Z ->
  slice_from (- w) l = skipn (length l - Z.to_nat w) l.
Proof.
  intros Hw. unfold slice_from.
  destruct (Z.ltb_spec (- w) 0) as [_ | H]; [| lia].
  f_equal. lia.
Qed.

Lemma slice_from_window_short {A : Type} (w : Z) (l : list A) :
  (Z.of_nat (length l) <= w)%Z -> (1 <= w)%Z -> slice_from (- w) l = l.
Proof.
  intros Hl Hw. rewrite slice_from_window by exact Hw.
  replace (length l - Z.to_nat w)%nat with 0%nat by lia. reflexivity.
Qed.


(** ** The weights *)

Lemma linspace_0 (start stop : R) : linspace start stop 0 = [].
Proof. reflexivity. Qed.

Lemma linspace_1 (start stop : R) :
  linspace start stop 1 = [0 * (stop - start) + start].
Proof. reflexivity. Qed.

Lemma linspace_many (start stop : R) (k : nat) :
  linspace start stop (S (S k)) =
  map (fun i => start + INR i * ((stop - start) / INR (S k)))
      (seq 0 (S (S k))).
Proof.
  assert (Hk : INR (S k) <> 0) by (apply not_0_INR; discriminate).
  unfold linspace.
  replace (S (S k) - 1)%nat with (S k) by lia.
  change (0 <? S k)%nat with true. change (1 <? S (S k))%nat with true.
  cbv iota.
  set (f := fun i : nat => start + INR i * ((stop - start) / INR (S k))).
  assert (Hy : forall l : list nat,
    map (fun v => v + start)
      (if Req_dec_T ((stop - start) / INR (S k)) 0
       then map (fun v => v / INR (S k) * (stop - start)) (map INR l)
       else map (fun v => v * ((stop - start) / INR (S k))) (map INR l))
    = map f l).
  { intros l. destruct (Req_dec_T _ 0) as [_ | _];
      rewrite !map_map; apply map_ext; intros i; unfold f; field; exact Hk. }
  rewrite Hy.
  rewrite (seq_S (S k) 0), map_app. cbn [map Nat.add].
  unfold set_last.
  destruct (map f (seq 0 (S k)) ++ [f (S k)]) eqn:E.
  - destruct (map f (seq 0 (S k))); discriminate E.
  - rewrite <- E, removelast_last. f_equal. f_equal.
    unfold f. field. exact Hk.
Qed.

Lemma linspace_nth (n i : nat) :
  (i < n)%nat -> nth i (linspace 0.1 1.0 n) 0 = weight_at n i.
Proof.
  intros Hi. destruct n as [| [| k]]; [lia | |].
  - replace i with 0%nat by lia. rewrite linspace_1. cbn. lra.
  - rewrite linspace_many.
    set (f := fun i : nat => 0.1 + INR i * ((1.0 - 0.1) / INR (S k))).
    rewrite (nth_indep _ 0 (f 0%nat)) by (rewrite length_map, length_seq; lia).
    rewrite (map_nth f), seq_nth by lia.
    unfold f, weight_at. cbn [Nat.add]. f_equal. f_equal. f_equal. lra.
Qed.

(** ** The running score as a weighted sum *)

Lemma score_event_magnitude (score weight : R) (ev : event) :
  score_event score weight ev = score + magnitude ev * weight.
Proof.
  unfold magnitude, score_event.
  repeat match goal with
         | |- context [if ?b then _ else _] => destruct b
         end; lra.
Qed.

Lemma magnitude_lower (ev : event) : - 0.2 <= magnitude ev.
Proof.
  unfold magnitude, score_event.
  repeat match goal with
         | |- context [if ?b then _ else _] => destruct b
         end; lra.
Qed.

Lemma fold_enumerate (weights : list R) (es : list event) :
  forall (k : nat) (acc : R),
    fold_left (fun score '(i, ev) => score_event score (nth i weights 0) ev)
              (combine (seq k (length es)) es) acc
    = acc + wsum (fun i => nth i weights 0) k es.
Proof.
  induction es as [| e t IH]; intros k acc; cbn.
  - lra.
  - rewrite IH, score_event_magnitude. lra.
Qed.

Lemma wsum_ext (W W' : nat -> R) (es : list event) :
  forall k : nat,
    (forall i, (k <= i < k + length es)%nat -> W i = W' i) ->
    wsum W k es = wsum W' k es.
Proof.
  induction es as [| e t IH]; intros k H; cbn; [reflexivity |].
  rewrite (H k) by (cbn; lia).
  rewrite (IH (S k)); [reflexivity |].
  intros i Hi. apply H. cbn. lia.
Qed.

Lemma running_score_wsum (es : list event) :
  running_score es = wsum (weight_at (length es)) 0 es.
Proof.
  unfold running_score, enumerate.
  rewrite fold_enumerate, Rplus_0_l.
  apply wsum_ext. intros i Hi. apply linspace_nth. lia.
Qed.

Lemma wsum_affine (a s : R) (es : list event) :
  forall k : nat,
    wsum (fun i => a + INR i * s) k es = a * total es + s * moment k es.
Proof.
  induction es as [| e t IH]; intros k; cbn [wsum total moment].
  - lra.
  - rewrite IH. lra.
Qed.

Lemma moment_S (es : list event) :
  forall k : nat, moment (S k) es = moment k es + total es.
Proof.
  induction es as [| e t IH]; intros k; cbn [total moment].
  - lra.
  - rewrite (IH (S k)), (S_INR k). lra.
Qed.

Lemma total_app (es : list event) (e : event) :
  total (es ++ [e]) = total es + magnitude e.
Proof.
  induction es as [| e' t IH]; cbn [app total]; [| rewrite IH]; lra.
Qed.

Lemma moment_app (es : list event) (e : event) :
  forall k : nat,
    moment k (es ++ [e]) = moment k es + INR (k + length es) * magnitude e.
Proof.
  induction es as [| e' t IH]; intros k; cbn [app moment length].
  - rewrite Nat.add_0_r. lra.
  - rewrite (IH (S k)). replace (S k + length t)%nat with (k + S (length t))%nat by lia.
    lra.
Qed.

Lemma total_lower (es : list event) : - 0.2 * INR (length es) <= total es.
Proof.
  induction es as [| e t IH]; cbn [total length].
  - cbn. lra.
  - rewrite S_INR. pose proof (magnitude_lower e). lra.
Qed.

Lemma moment_lower (es : list event) :
  forall k : nat,
    - 0.2 * (INR k * INR (length es)
             + INR (length es) * (INR (length es) - 1) / 2)
    <= moment k es.
Proof.
  induction es as [| e t IH]; intros k; cbn [moment length].
  - cbn. lra.
  - specialize (IH (S k)). rewrite !S_INR in *.
    pose proof (magnitude_lower e) as He.
    pose proof (pos_INR k) as Hk.
    assert (INR k * magnitude e >= INR k * - 0.2) by nra.
    nra.
Qed.

(** The running score of two or more considered events in closed form. *)
Lemma running_score_closed (es : list event) :
  (2 <= length es)%nat ->
  running_score es
  = 0.1 * total es + 0.9 / (INR (length es) - 1) * moment 0 es.
Proof.
  intros Hn. rewrite running_score_wsum.
  destruct (length es) as [| [| k]] eqn:E; [lia | lia |].
  change (weight_at (S (S k)))
    with (fun i : nat => 0.1 + INR i * (0.9 / INR (S k))).
  rewrite wsum_affine. rewrite (S_INR (S k)).
  replace (INR (S k) + 1 - 1) with (INR (S k)) by lra. reflexivity.
Qed.

Lemma running_score_nil : running_score [] = 0.
Proof. reflexivity. Qed.

Lemma running_score_single (e : event) :
  running_score [e] = 0.1 * magnitude e.
Proof. rewrite running_score_wsum. cbn. lra. Qed.

Lemma magnitude_upgrade (u : event) :
  type u = "upgrade_plan"%string -> magnitude u = - 0.2.
Proof.
  intros Hu. unfold magnitude, score_event. rewrite Hu.
  cbn [String.eqb Ascii.eqb Bool.eqb orb]. lra.
Qed.

(** Two facts of real arithmetic behind the next lemmas. *)
Lemma append_upgrade_arith (n A B : R) :
  2 <= n -> -0.2 * (0 * n + n * (n - 1) / 2) <= B ->
  0.1 * (A + -0.2) + 0.9 / (n + 1 - 1) * (B + n * -0.2)
  <= 0.1 * A + 0.9 / (n - 1) * B.
Proof.
  intros Hn HB.
  assert (Hpos : 0 < n * (n - 1)) by nra.
  pose (q := B / (n * (n - 1))).
  assert (HBq : B = q * (n * (n - 1))) by (unfold q; field; lra).
  clearbody q.
  assert (Hq : - 0.1 <= q).
  { apply (Rmult_le_reg_r (n * (n - 1))); [exact Hpos | lra]. }
  subst B.
  replace (0.9 / (n + 1 - 1) * (q * (n * (n - 1)) + n * - 0.2))
    with (0.9 * q * (n - 1) - 0.18) by (field_simplify_eq; [nra | lra]).
  replace (0.9 / (n - 1) * (q * (n * (n - 1)))) with (0.9 * q * n)
    by (field_simplify_eq; [nra | lra]).
  lra.
Qed.
Lemma shift_upgrade_arith (n A B m0 : R) :
  1 <= n -> -0.2 * n <= A -> -0.2 <= m0 ->
  0.1 * (A + -0.2) + 0.9 / (n + 1 - 1) * (B + n * -0.2)
  <= 0.1 * (m0 + A) + 0.9 / (n + 1 - 1) * (0 * m0 + (B + A)).
Proof.
  intros Hn HA H0.
  replace (0.9 / (n + 1 - 1) * (B + n * - 0.2)) with (0.9 / n * B - 0.18)
    by (field_simplify_eq; [nra | lra]).
  replace (0.9 / (n + 1 - 1) * (0 * m0 + (B + A)))
    with (0.9 / n * B + 0.9 * (A / n)) by (field_simplify_eq; [nra | lra]).
  assert (HAn : - 0.2 <= A / n).
  { apply (Rmult_le_reg_r n); [lra |].
    replace (A / n * n) with A by (field_simplify_eq; [nra | lra]). lra. }
  lra.
Qed.

(** Appending an upgrade to the considered events lowers the running
    score. *)
Lemma running_score_append_upgrade (es : list event) (u : event) :
  type u = "upgrade_plan"%string ->
  running_score (es ++ [u]) <= running_score es.
Proof.
  intros Hu. pose proof (magnitude_upgrade u Hu) as Hm.
  destruct es as [| e1 [| e2 t]].
  - cbn [app]. rewrite running_score_single, running_score_nil. lra.
  - cbn [app]. rewrite running_score_single.
    rewrite running_score_closed by (cbn; lia).
    cbn [length total moment INR]. lra.
  - set (es := e1 :: e2 :: t).
    assert (Hlen : (2 <= length es)%nat) by (cbn; lia).
    rewrite (running_score_closed es) by exact Hlen.
    rewrite running_score_closed by (rewrite length_app; cbn; lia).
    rewrite total_app, moment_app, length_app, Hm.
    cbn [length Nat.add]. rewrite plus_INR. change (INR 1) with 1.
    pose proof (moment_lower es 0) as HB. change (INR 0) with 0 in HB.
    assert (Hn : 2 <= INR (length es)) by (apply (le_INR 2), Hlen).
    apply append_upgrade_arith; assumption.
Qed.

(** Dropping the oldest considered event and appending an upgrade does not
    raise the running score. *)
Lemma running_score_shift_upgrade (e0 : event) (t : list event) (u : event) :
  type u = "upgrade_plan"%string ->
  running_score (t ++ [u]) <= running_score (e0 :: t).
Proof.
  intros Hu. pose proof (magnitude_upgrade u Hu) as Hm.
  pose proof (magnitude_lower e0) as H0.
  destruct t as [| e1 t'].
  - cbn [app]. rewrite !running_score_single. lra.
  - set (t := e1 :: t').
    assert (Hlen : (1 <= length t)%nat) by (cbn; lia).
    rewrite (running_score_closed (e0 :: t)) by (cbn; lia).
    rewrite running_score_closed by (rewrite length_app; cbn; lia).
    rewrite total_app, moment_app, length_app, Hm.
    cbn [length Nat.add total moment].
    rewrite moment_S, plus_INR, (S_INR (length t)).
    change (INR 1) with 1. change (INR 0) with 0.
    pose proof (total_lower t) as HA.
    assert (Hn : 1 <= INR (length t)) by (apply (le_INR 1), Hlen).
    apply shift_upgrade_arith; assumption.
Qed.

(** ** The logistic transform and the clamp *)

Lemma sigmoid_range (s : R) : 0 < sigmoid s < 1.
Proof.
  unfold sigmoid. pose proof (exp_pos (- s)) as He.
  assert (Hinv : 0 < / (1 + exp (- s))) by (apply Rinv_0_lt_compat; lra).
  assert (Hone : (1 + exp (- s)) * / (1 + exp (- s)) = 1)
    by (apply Rinv_r; lra).
  unfold Rdiv. rewrite Rmult_1_l. split; [exact Hinv | nra].
Qed.

Lemma sigmoid_increasing (s1 s2 : R) : s1 < s2 -> sigmoid s1 < sigmoid s2.
Proof.
  intros H. unfold sigmoid, Rdiv. rewrite !Rmult_1_l.
  pose proof (exp_pos (- s1)). pose proof (exp_pos (- s2)).
  assert (exp (- s2) < exp (- s1)) by (apply exp_increasing; lra).
  apply Rinv_lt_contravar; [nra | lra].
Qed.

Lemma sigmoid_monotone (s1 s2 : R) : s1 <= s2 -> sigmoid s1 <= sigmoid s2.
Proof.
  intros [H | H].
  - left. apply sigmoid_increasing, H.
  - subst. right. reflexivity.
Qed.

Lemma sigmoid_0 : sigmoid 0 = 0.5.
Proof. unfold sigmoid. rewrite Ropp_0, exp_0. lra. Qed.

(** The clamp never fires: the scorer returns the logistic transform of the
    running score of the considered events. *)
Lemma predict_sigmoid (event_sequence : list event) (w : Z) :
  predict_churn_risk_simplified_rnn event_sequence w
  = sigmoid (running_score (slice_from (- w) event_sequence)).
Proof.
  unfold predict_churn_risk_simplified_rnn, py_min, py_max.
  pose proof (sigmoid_range (running_score (slice_from (- w) event_sequence))).
  repeat destruct (Rlt_dec _ _); lra.
Qed.

Lemma predict_range (event_sequence : list event) (w : Z) :
  0 <= predict_churn_risk_simplified_rnn event_sequence w <= 1.
Proof.
  rewrite predict_sigmoid.
  pose proof (sigmoid_range (running_score (slice_from (- w) event_sequence))).
  lra.
Qed.

(** ** The score reads the event types only *)

Lemma magnitude_type (e e' : event) : type e = type e' -> magnitude e = magnitude e'.
Proof. intros H. unfold magnitude, score_event. rewrite H. reflexivity. Qed.

Lemma wsum_types (W : nat -> R) (es : list event) :
  forall (es' : list event) (k : nat),
    map type es = map type es' -> wsum W k es = wsum W k es'.
Proof.
  induction es as [| e t IH]; intros [| e' t'] k H; try discriminate H.
  - reflexivity.
  - injection H as He Ht. cbn [wsum].
    rewrite (magnitude_type e e' He), (IH t' (S k) Ht). reflexivity.
Qed.

Lemma running_score_types (es es' : list event) :
  map type es = map type es' -> running_score es = running_score es'.
Proof.
  intros H. rewrite !running_score_wsum.
  assert (Hlen : length es = length es')
    by (rewrite <- (length_map type es), H; apply length_map).
  rewrite Hlen. apply wsum_types, H.
Qed.

Lemma slice_from_map {A B : Type} (f : A -> B) (start : Z) (l : list A) :
  map f (slice_from start l) = slice_from start (map f l).
Proof. unfold slice_from. rewrite length_map. symmetry. apply skipn_map. Qed.

(** ** Windowing *)

(** With a window of at least one event, the scorer reads the last
    [min w (length history)] events only. *)
Lemma slice_from_prepend {A : Type} (w : Z) (older history : list A) :
  (1 <= w <= Z.of_nat (length history))%Z ->
  slice_from (- w) (older ++ history) = slice_from (- w) history.
Proof.
  intros Hw. rewrite !slice_from_window by lia.
  rewrite length_app, skipn_app.
  replace (length older + length history - Z.to_nat w - length older)%nat
    with (length history - Z.to_nat w)%nat by lia.
  rewrite skipn_all2 by lia. reflexivity.
Qed.

Lemma windowing_suffix (w : Z) (history : list event) :
  (1 <= w)%Z ->
  predict_churn_risk_simplified_rnn history w
  = predict_churn_risk_simplified_rnn
      (skipn (length history - Nat.min (Z.to_nat w) (length history)) history)
      w.
Proof.
  intros Hw. rewrite !predict_sigmoid, !slice_from_window by exact Hw.
  rewrite skipn_skipn. f_equal. f_equal. f_equal.
  rewrite length_skipn. lia.
Qed.

Lemma windowing_positive (w : Z) (older history : list event) :
  (1 <= w <= Z.of_nat (length history))%Z ->
  predict_churn_risk_simplified_rnn (older ++ history) w
  = predict_churn_risk_simplified_rnn history w.
Proof.
  intros Hw. rewrite !predict_sigmoid, slice_from_prepend by exact Hw.
  reflexivity.
Qed.

(** ** The forecaster's loops *)

Lemma bind_Ok {G A B : Type} (m : M G A) (k : A -> M G B) (g : G)
    (r : B * G) :
  bind m k g = Ok r -> exists a g1, m g = Ok (a, g1) /\ k a g1 = Ok r.
Proof.
  unfold bind. destruct (m g) as [[a g1] | e]; [| discriminate].
  intros H. exists a, g1. split; [reflexivity | exact H].
Qed.

Lemma or_raise_Ok {G A : Type} (o : option A) (e : exn) (g : G)
    (r : A * G) :
  or_raise o e g = Ok r -> o = Some (fst r) /\ snd r = g.
Proof.
  destruct o as [a |]; cbn; [| discriminate].
  intros H. injection H as <-. split; reflexivity.
Qed.

Section ForecasterFacts.

Context {G : Type} {RS : RandomSource G} {RL : RandomSourceLaws G}.
Context {D : Type} {DT : DateTimeLib D}.

Lemma choice_In {A : Type} (seq : list A) (g : G) (a : A) (g1 : G) :
  choice seq g = Ok (a, g1) -> In a seq.
Proof.
  unfold choice. intros H.
  apply bind_Ok in H as (k & g2 & _ & H).
  apply or_raise_Ok in H as [H _]. cbn [fst] in H.
  apply (nth_error_In _ _ H).
Qed.

Lemma choice_total {A : Type} (seq : list A) (g : G) :
  seq <> [] -> exists a g1, choice seq g = Ok (a, g1).
Proof.
  intros Hne. unfold choice, bind, draw.
  destruct (randbelow (length seq) g) as [k g1] eqn:E.
  assert (Hk : (k < length seq)%nat).
  { pose proof (randbelow_lt (length seq) g) as H. rewrite E in H.
    apply H. destruct seq; [contradiction | cbn; lia]. }
  destruct (nth_error seq k) as [a |] eqn:En.
  - exists a, g1. reflexivity.
  - apply nth_error_None in En. lia.
Qed.

(** The event of one simulated day. *)
Lemma day_event_type (u activity_prob : R) (stamp : string) (g : G)
    (ev : event) (g1 : G) :
  (if Rlt_dec u activity_prob
   then event_type <- choice activity_types ;;
        ret (mk_event stamp event_type)
   else ret (mk_event stamp "inactivity")) g = Ok (ev, g1) ->
  In (type ev) simulated_types.
Proof.
  destruct (Rlt_dec u activity_prob) as [_ | _]; intros H.
  - apply bind_Ok in H as (ty & g2 & Hc & H).
    injection H as <- _. cbn [type]. apply choice_In in Hc.
    unfold simulated_types, activity_types in *. cbn in *. tauto.
  - injection H as <- _. cbn. tauto.
Qed.

Lemma day_event_total (u activity_prob : R) (stamp : string) (g : G) :
  exists ev g1,
    (if Rlt_dec u activity_prob
     then event_type <- choice activity_types ;;
          ret (mk_event stamp event_type)
     else ret (mk_event stamp "inactivity")) g = Ok (ev, g1).
Proof.
  destruct (Rlt_dec u activity_prob) as [_ | _].
  - destruct (choice_total activity_types g) as (ty & g1 & Hc);
      [discriminate |].
    exists (mk_event stamp ty), g1. unfold bind. rewrite Hc. reflexivity.
  - eexists _, _. reflexivity.
Qed.

(** A run of the day loop appends one event per day, each of a simulated
    type. *)
Lemma simulate_days_spec (current_risk : R) (days : nat) :
  forall (d : D) (acc : list event) (g : G) (evs : list event) (g' : G),
    simulate_days current_risk days d acc g = Ok (evs, g') ->
    exists new,
      evs = acc ++ new /\ length new = days /\
      Forall (fun ev => In (type ev) simulated_types) new.
Proof.
  induction days as [| k IH]; intros d acc g evs g' H.
  - injection H as <- _. exists []. rewrite app_nil_r. auto.
  - cbn [simulate_days] in H.
    apply bind_Ok in H as (u & g1 & _ & H).
    apply bind_Ok in H as (ev & g2 & Hev & H).
    apply bind_Ok in H as (d' & g3 & _ & H).
    apply day_event_type in Hev.
    apply IH in H as (new & -> & Hlen & Hall).
    exists (ev :: new). rewrite <- app_assoc. cbn.
    split; [reflexivity |]. split; [lia |]. constructor; assumption.
Qed.

(** The day loop returns whenever the calendar has the days it walks
    through: no draw can make it fail. *)
Lemma simulate_days_total (current_risk : R) (days : nat) :
  forall (d : D) (acc : list event) (g : G),
    days_ahead days d <> None ->
    exists evs g', simulate_days current_risk days d acc g = Ok (evs, g').
Proof.
  induction days as [| k IH]; intros d acc g Hd.
  - exists acc, g. reflexivity.
  - cbn [days_ahead] in Hd. cbn [simulate_days].
    destruct (add_one_day d) as [d' |] eqn:Ed; [| contradiction].
    unfold bind at 1. unfold draw at 1.
    destruct (random g) as [u g1].
    destruct (day_event_total u (0.6 * (1 - current_risk)) (strftime d) g1)
      as (ev & g2 & Hev).
    unfold bind at 1. rewrite Hev.
    unfold bind at 1. cbn [or_raise ret].
    apply IH, Hd.
Qed.

End ForecasterFacts.

Section TrialFacts.

Context {G : Type} {RS : RandomSource G} {RL : RandomSourceLaws G}.
Context {D : Type} {DT : DateTimeLib D}.

Lemma simulation_range (c : customer) (risk : R) (days : Z) (g : G)
    (p : R) (g' : G) :
  simulation c risk days g = Ok (p, g') -> 0 <= p <= 1.
Proof.
  unfold simulation. intros H.
  apply bind_Ok in H as (d0 & g1 & _ & H).
  apply bind_Ok in H as (d1 & g2 & _ & H).
  apply bind_Ok in H as (evs & g3 & _ & H).
  injection H as <- _. apply predict_range.
Qed.

Lemma simulations_spec (c : customer) (risk : R) (days : Z) (n : nat) :
  forall (acc : list R) (g : G) (l : list R) (g' : G),
    simulations c risk days n acc g = Ok (l, g') ->
    exists new,
      l = acc ++ new /\ length new = n /\
      Forall (fun p => 0 <= p <= 1) new.
Proof.
  induction n as [| k IH]; intros acc g l g' H.
  - injection H as <- _. exists []. rewrite app_nil_r. auto.
  - cbn [simulations] in H.
    apply bind_Ok in H as (p & g1 & Hp & H).
    apply simulation_range in Hp.
    apply IH in H as (new & -> & Hlen & Hall).
    exists (p :: new). rewrite <- app_assoc. cbn.
    split; [reflexivity |]. split; [lia |]. constructor; assumption.
Qed.

(** A trial returns whenever the date parses and the calendar has the
    days the trial walks through. *)
Lemma simulation_total (c : customer) (risk : R) (days : Z) (d0 : D)
    (g : G) :
  strptime (last_activity_date c) = Some d0 ->
  days_ahead (S (Z.to_nat days)) d0 <> None ->
  exists p g', simulation c risk days g = Ok (p, g').
Proof.
  intros Hparse Hdays. unfold simulation. rewrite Hparse.
  cbn [days_ahead] in Hdays.
  destruct (add_one_day d0) as [d1 |] eqn:Ed; [| contradiction].
  unfold bind at 1. cbn [or_raise ret]. rewrite Ed.
  unfold bind at 1. cbn [or_raise ret].
  destruct (simulate_days_total risk (Z.to_nat days) d1 [] g Hdays)
    as (evs & g' & Hs).
  unfold bind. rewrite Hs. eexists _, _. reflexivity.
Qed.

Lemma simulations_total (c : customer) (risk : R) (days : Z) (d0 : D)
    (n : nat) :
  strptime (last_activity_date c) = Some d0 ->
  days_ahead (S (Z.to_nat days)) d0 <> None ->
  forall (acc : list R) (g : G),
    exists l g', simulations c risk days n acc g = Ok (l, g').
Proof.
  intros Hparse Hdays.
  induction n as [| k IH]; intros acc g.
  - exists acc, g. reflexivity.
  - cbn [simulations].
    destruct (simulation_total c risk days d0 g Hparse Hdays)
      as (p & g1 & Hp).
    unfold bind. rewrite Hp. apply IH.
Qed.

Lemma monte_carlo_total (c : customer) (num_simulations days : Z) (d0 : D)
    (g : G) :
  strptime (last_activity_date c) = Some d0 ->
  days_ahead (S (Z.to_nat days)) d0 <> None ->
  exists result g',
    monte_carlo_churn_prediction c num_simulations days g = Ok (result, g').
Proof.
  intros Hparse Hdays. unfold monte_carlo_churn_prediction.
  destruct (simulations_total c (score_default (events c)) days d0
              (Z.to_nat num_simulations) Hparse Hdays [] g)
    as (l & g' & Hl).
  unfold bind. rewrite Hl. eexists _, _. reflexivity.
Qed.

(** With no day to simulate a trial rescans the history as it is, and
    draws nothing. *)
Lemma simulation_no_days (c : customer) (risk : R) (days : Z) (d0 d1 : D)
    (g : G) :
  strptime (last_activity_date c) = Some d0 ->
  add_one_day d0 = Some d1 ->
  (days <= 0)%Z ->
  simulation c risk days g = Ok (score_default (events c), g).
Proof.
  intros Hparse Hnext Hdays. unfold simulation, bind.
  rewrite Hparse. cbn [or_raise ret]. rewrite Hnext. cbn [or_raise ret].
  replace (Z.to_nat days) with 0%nat by lia.
  cbn [simulate_days ret]. rewrite app_nil_r. reflexivity.
Qed.

Lemma simulations_no_days (c : customer) (risk : R) (days : Z) (d0 d1 : D)
    (n : nat) :
  strptime (last_activity_date c) = Some d0 ->
  add_one_day d0 = Some d1 ->
  (days <= 0)%Z ->
  forall (acc : list R) (g : G),
    simulations c risk days n acc g
    = Ok (acc ++ repeat (score_default (events c)) n, g).
Proof.
  intros Hparse Hnext Hdays.
  induction n as [| k IH]; intros acc g.
  - cbn. rewrite app_nil_r. reflexivity.
  - cbn [simulations repeat]. unfold bind.
    rewrite (simulation_no_days c risk days d0 d1 g Hparse Hnext Hdays).
    rewrite IH, <- app_assoc. reflexivity.
Qed.

(** A negative [forecast_days] is an empty [range], like zero. *)
Lemma simulations_negative_days (c : customer) (risk : R) (days : Z)
    (n : nat) :
  (days < 0)%Z ->
  forall (acc : list R) (g : G),
    simulations c risk days n acc g = simulations c risk 0 n acc g.
Proof.
  intros Hdays.
  assert (Hs : forall g, simulation c risk days g = simulation c risk 0 g).
  { intros g. unfold simulation.
    replace (Z.to_nat days) with (Z.to_nat 0) by lia. reflexivity. }
  induction n as [| k IH]; intros acc g; [reflexivity |].
  cbn [simulations]. unfold bind. rewrite Hs.
  destruct (simulation c risk 0 g) as [[p g1] | e]; [apply IH | reflexivity].
Qed.

(** A date that does not parse stops the first trial. *)
Lemma simulations_bad_date (c : customer) (risk : R) (days : Z) (n : nat)
    (acc : list R) (g : G) :
  strptime (last_activity_date c) = None ->
  simulations c risk days (S n) acc g = Raise ValueError.
Proof.
  intros Hparse. cbn [simulations]. unfold bind at 1.
  unfold simulation. rewrite Hparse. reflexivity.
Qed.

End TrialFacts.

(** ** Runs on the sample customer *)

(** The end-to-end example: six events, weights 0.1, 0.28, ..., 1.0. *)
Example running_score_dummy :
  running_score (events dummy_customer_data) = 0.229.
Proof.
  rewrite running_score_wsum.
  cbn [events dummy_customer_data length wsum weight_at].
  rewrite !INR_IZR_INZ. cbn [Z.of_nat Pos.of_succ_nat Pos.succ].
  unfold magnitude, score_event.
  cbn [type String.eqb Ascii.eqb Bool.eqb orb]. lra.
Qed.

(** Three simulated days at a risk of 0.2, from the seed 42. *)
Example simulate_three_days :
  simulate_days (D := PyDate.t) 0.2 3 (PyDate.mk 2024 6 16) [] 42%Z
  = Ok ([ mk_event "2024-06-16" "inactivity";
          mk_event "2024-06-17" "inactivity";
          mk_event "2024-06-18" "make_purchase" ], 1668674806%Z).
Proof.
  cbn [simulate_days]. unfold bind, draw.
  cbn [random lcg_source]. unfold Lcg.lcg_random, Lcg.modulus. cbv zeta.
  change (Lcg.next 42) with 1250496027%Z.
  destruct (Rlt_dec _ _) as [H | _]; [exfalso; lra |].
  cbn [ret or_raise add_one_day py_datetime].
  change (PyDate.tomorrow (PyDate.mk 2024 6 16)) with (Some (PyDate.mk 2024 6 17)).
  cbn [ret or_raise random lcg_source].
  change (Lcg.next 1250496027) with 1116302264%Z.
  destruct (Rlt_dec _ _) as [H | _]; [exfalso; lra |].
  cbn [ret or_raise add_one_day py_datetime].
  change (PyDate.tomorrow (PyDate.mk 2024 6 17)) with (Some (PyDate.mk 2024 6 18)).
  cbn [ret or_raise random lcg_source].
  change (Lcg.next 1116302264) with 1000676753%Z.
  destruct (Rlt_dec _ _) as [_ | H]; [| exfalso; lra].
  reflexivity.
Qed.

(** * The claims *)

(** ** Scorer *)

(** C1, as stated, fails: a lone considered event - the only event of the
    history under the default window, or the last of two under a window of
    one - is not weighted 1.0, and its contribution to the running score is
    not [1.0 * magnitude]. *)
Lemma single_event_weight_not_one :
  let ev := mk_event "2024-06-15" "inactivity" in
  let older := mk_event "2024-06-01" "login" in
  slice_from (- default_history_length) [ev] = [ev] /\
  slice_from (- 1) [older; ev] = [ev] /\
  nth 0 (linspace 0.1 1.0 (length [ev])) 0 <> 1.0 /\
  running_score [ev] <> 1.0 * magnitude ev.
Proof.
  cbv zeta. split; [reflexivity |]. split; [reflexivity |].
  rewrite running_score_single, linspace_nth by (cbn; lia).
  assert (Hm : magnitude (mk_event "2024-06-15" "inactivity") = 0.2)
    by (unfold magnitude, score_event; cbn; lra).
  rewrite Hm. cbn [weight_at length]. split; lra.
Qed.

(** C1, amended: when the considered window holds exactly one event, that
    event gets the recency weight 0.1 - the start of the linear space, which
    is what [np.linspace] returns for a single sample - so the running score
    is [0.1 * magnitude] of its type and the scorer returns the logistic
    transform of that. *)
Theorem single_event_weight (es : list event) (w : Z) (ev : event) :
  slice_from (- w) es = [ev] ->
  linspace 0.1 1.0 (length (slice_from (- w) es)) = [0 * (1.0 - 0.1) + 0.1] /\
  nth 0 (linspace 0.1 1.0 (length (slice_from (- w) es))) 0 = 0.1 /\
  running_score (slice_from (- w) es) = 0.1 * magnitude ev /\
  predict_churn_risk_simplified_rnn es w = sigmoid (0.1 * magnitude ev).
Proof.
  intros Hs. rewrite predict_sigmoid, Hs, running_score_single.
  cbn [length]. rewrite linspace_1. cbn [nth].
  repeat split; try reflexivity. lra.
Qed.

Lemma single_event_weight_witness :
  let ev := mk_event "2024-06-15" "support_query" in
  let older := mk_event "2024-06-01" "login" in
  nth 0 (linspace 0.1 1.0 (length (slice_from (- 1) [older; ev]))) 0 = 0.1 /\
  running_score (slice_from (- 1) [older; ev]) = 0.1 * magnitude ev.
Proof.
  cbv zeta.
  destruct (single_event_weight
              [mk_event "2024-06-01" "login";
               mk_event "2024-06-15" "support_query"]
              1 (mk_event "2024-06-15" "support_query") eq_refl)
    as (_ & Hw & Hr & _).
  split; [exact Hw | exact Hr].
Defined.

(** C3: under the default window, appending an [upgrade_plan] event at the
    most recent position never raises the score: the scorer's result on the
    longer history is at most its result on the shorter one. *)
Theorem upgrade_never_raises_score (history : list event) (u : event) :
  type u = "upgrade_plan"%string ->
  score_default (history ++ [u]) <= score_default history.
Proof.
  intros Hu. unfold score_default, default_history_length.
  rewrite !predict_sigmoid. apply sigmoid_monotone.
  rewrite !slice_from_window by lia.
  rewrite length_app. cbn [length].
  change (Z.to_nat 30) with 30%nat.
  destruct (Nat.le_gt_cases (length history) 29) as [Hshort | Hlong].
  - replace (length history + 1 - 30)%nat with 0%nat by lia.
    replace (length history - 30)%nat with 0%nat by lia.
    cbn [skipn]. apply running_score_append_upgrade, Hu.
  - rewrite skipn_app.
    replace (length history + 1 - 30 - length history)%nat with 0%nat by lia.
    cbn [skipn].
    replace (length history + 1 - 30)%nat
      with (1 + (length history - 30))%nat by lia.
    rewrite <- skipn_skipn.
    destruct (skipn (length history - 30) history) as [| e0 t] eqn:E.
    + apply (f_equal (@length event)) in E.
      rewrite length_skipn in E. cbn in E. lia.
    + cbn [skipn]. apply running_score_shift_upgrade, Hu.
Qed.

Lemma upgrade_never_raises_score_witness :
  score_default (events dummy_customer_data
                 ++ [mk_event "2024-06-16" "upgrade_plan"])
  <= score_default (events dummy_customer_data).
Proof.
  apply (upgrade_never_raises_score (events dummy_customer_data)
           (mk_event "2024-06-16" "upgrade_plan")).
  reflexivity.
Defined.

(** C4, at a window of zero: [event_sequence[-0:]] is the whole list, so the
    scorer considers every event instead of none.  With an empty history,
    prepending one older [inactivity] event changes the result from 0.5 to
    the logistic transform of 0.02. *)
Theorem window_zero_considers_whole_history :
  let older := mk_event "2024-06-01" "inactivity" in
  slice_from (- 0) [older] = [older] /\
  predict_churn_risk_simplified_rnn ([older] ++ []) 0 = sigmoid 0.02 /\
  predict_churn_risk_simplified_rnn [] 0 = 0.5 /\
  predict_churn_risk_simplified_rnn ([older] ++ []) 0
  <> predict_churn_risk_simplified_rnn [] 0.
Proof.
  cbv zeta. cbn [app].
  assert (Hm : magnitude (mk_event "2024-06-01" "inactivity") = 0.2)
    by (unfold magnitude, score_event; cbn; lra).
  assert (H1 : predict_churn_risk_simplified_rnn
                 [mk_event "2024-06-01" "inactivity"] 0 = sigmoid 0.02).
  { rewrite predict_sigmoid. change (- 0)%Z with 0%Z.
    rewrite slice_from_zero, running_score_single, Hm. f_equal. lra. }
  assert (H0 : predict_churn_risk_simplified_rnn [] 0 = 0.5).
  { rewrite predict_sigmoid. change (slice_from (- 0) []) with (@nil event).
    rewrite running_score_nil. apply sigmoid_0. }
  split; [reflexivity |]. split; [exact H1 |]. split; [exact H0 |].
  rewrite H1, H0, <- sigmoid_0.
  apply Rgt_not_eq, sigmoid_increasing. lra.
Qed.

(** C8: on an empty history the scorer considers no event, the running
    score is 0, the logistic transform of 0 is 0.5, and the scorer returns
    exactly 0.5, whatever the window. *)
Theorem score_empty_history (w : Z) :
  slice_from (- w) (@nil event) = [] /\
  running_score (slice_from (- w) []) = 0 /\
  sigmoid 0 = 0.5 /\
  predict_churn_risk_simplified_rnn [] w = 0.5.
Proof.
  assert (Hs : slice_from (- w) (@nil event) = [])
    by (unfold slice_from; apply skipn_nil).
  rewrite predict_sigmoid, Hs, running_score_nil.
  repeat split; try reflexivity; apply sigmoid_0.
Qed.

(** C10: the scorer reads the ordered sequence of event types only: two
    histories with the same types in the same order get the same score,
    whatever their dates and whatever the window. *)
Theorem score_ignores_dates (h1 h2 : list event) (w : Z) :
  map type h1 = map type h2 ->
  predict_churn_risk_simplified_rnn h1 w
  = predict_churn_risk_simplified_rnn h2 w.
Proof.
  intros H. rewrite !predict_sigmoid. f_equal.
  apply running_score_types.
  rewrite !slice_from_map, H. reflexivity.
Qed.

Lemma score_ignores_dates_witness :
  predict_churn_risk_simplified_rnn
    [mk_event "2024-06-01" "login"; mk_event "2024-06-05" "inactivity"] 30
  = predict_churn_risk_simplified_rnn
    [mk_event "1999-12-31" "login"; mk_event "" "inactivity"] 30.
Proof.
  apply (score_ignores_dates
           [mk_event "2024-06-01" "login"; mk_event "2024-06-05" "inactivity"]
           [mk_event "1999-12-31" "login"; mk_event "" "inactivity"] 30).
  reflexivity.
Defined.

(** ** Forecaster *)

Section ForecasterClaims.

Context {G : Type} {RS : RandomSource G}.
Context {D : Type} {DT : DateTimeLib D}.

(** C2, amended: the forecaster validates neither parameter.  With
    [num_simulations < 1] it returns at once, without parsing the date or
    drawing a number: [nan] for the mean and the deviation and an empty
    list of samples.  With a negative [forecast_days] it behaves as with
    [forecast_days = 0]. *)
Theorem no_parameter_validation (c : customer) (num_simulations days : Z)
    (g : G) :
  ((num_simulations < 1)%Z ->
   monte_carlo_churn_prediction c num_simulations days g
   = Ok ((None, None, []), g)) /\
  ((days < 0)%Z ->
   monte_carlo_churn_prediction c num_simulations days g
   = monte_carlo_churn_prediction c num_simulations 0 g).
Proof.
  split; intros H; unfold monte_carlo_churn_prediction.
  - replace (Z.to_nat num_simulations) with 0%nat by lia. reflexivity.
  - unfold bind. rewrite simulations_negative_days by exact H. reflexivity.
Qed.

(** C5: when [num_simulations >= 1] and [forecast_days >= 0], the list of
    samples the forecaster returns has exactly [num_simulations] elements,
    each of them in [0, 1]; and every result of the scorer is in [0, 1]. *)
Theorem forecast_samples (c : customer) (num_simulations days : Z) (g : G)
    (result : option R * option R * list R) (g' : G) :
  (1 <= num_simulations)%Z ->
  (0 <= days)%Z ->
  monte_carlo_churn_prediction c num_simulations days g = Ok (result, g') ->
  Z.of_nat (length (samples result)) = num_simulations /\
  Forall (fun p => 0 <= p <= 1) (samples result) /\
  (forall (es : list event) (w : Z),
      0 <= predict_churn_risk_simplified_rnn es w <= 1).
Proof.
  intros HN _ H. unfold monte_carlo_churn_prediction in H.
  apply bind_Ok in H as (l & g1 & Hl & H).
  injection H as <- _. cbn [samples snd].
  apply simulations_spec in Hl as (new & -> & Hlen & Hall).
  cbn [app]. split; [lia |]. split; [exact Hall |].
  intros es w. apply predict_range.
Qed.

(** C6, amended: when the last activity date parses and has a following
    day, and [num_simulations >= 1], a forecast over zero days returns,
    leaves the random source untouched, and each of its
    [num_simulations] samples equals the scorer's result on the original
    history. *)
Theorem zero_day_forecast (c : customer) (num_simulations : Z) (d0 d1 : D)
    (g : G) :
  strptime (last_activity_date c) = Some d0 ->
  add_one_day d0 = Some d1 ->
  (1 <= num_simulations)%Z ->
  exists result,
    monte_carlo_churn_prediction c num_simulations 0 g = Ok (result, g) /\
    Z.of_nat (length (samples result)) = num_simulations /\
    Forall (fun p => p = score_default (events c)) (samples result).
Proof.
  intros Hparse Hnext HN. unfold monte_carlo_churn_prediction, bind.
  rewrite (simulations_no_days c _ 0 d0 d1 _ Hparse Hnext) by lia.
  eexists. split; [reflexivity |]. cbn [samples snd app].
  split.
  - rewrite repeat_length. lia.
  - apply Forall_forall. intros p Hp. apply (repeat_spec _ _ _ Hp).
Qed.

(** C7: in a trial, whatever the draws, the day loop appends one event
    per simulated day, each of type [login], [view_feature],
    [make_purchase], [support_query] or [inactivity], and none of type
    [upgrade_plan]. *)
Theorem simulated_future_vocabulary (current_risk : R) (days : nat) (d : D)
    (g : G) (evs : list event) (g' : G) :
  simulate_days current_risk days d [] g = Ok (evs, g') ->
  length evs = days /\
  Forall (fun ev => In (type ev) simulated_types) evs /\
  Forall (fun ev => type ev <> "upgrade_plan"%string) evs.
Proof.
  intros H.
  apply simulate_days_spec in H as (new & -> & Hlen & Hall).
  cbn [app]. split; [exact Hlen |]. split; [exact Hall |].
  apply (Forall_impl _ (P := fun ev => In (type ev) simulated_types));
    [| exact Hall].
  intros ev Hin Hup. rewrite Hup in Hin.
  unfold simulated_types in Hin. cbn in Hin.
  repeat (destruct Hin as [Hin | Hin]; [discriminate Hin |]).
  exact Hin.
Qed.

(** C9, amended: when the last activity date does not parse and
    [num_simulations >= 1], the forecaster raises the [ValueError] of the
    parse in the first trial, whatever [forecast_days] and the random
    source, and returns nothing. *)
Theorem bad_date_fails (c : customer) (num_simulations days : Z) (g : G) :
  strptime (last_activity_date c) = None ->
  (1 <= num_simulations)%Z ->
  monte_carlo_churn_prediction c num_simulations days g = Raise ValueError.
Proof.
  intros Hparse HN. unfold monte_carlo_churn_prediction.
  destruct (Z.to_nat num_simulations) as [| n] eqn:E; [lia |].
  unfold bind. rewrite simulations_bad_date by exact Hparse. reflexivity.
Qed.

End ForecasterClaims.

(** ** The forecaster on concrete calls *)

(** C2, as stated, fails: a call with [num_simulations = 0] and a call with
    [forecast_days = -1] both return a result instead of raising. *)
Lemma invalid_parameters_accepted :
  monte_carlo_churn_prediction (D := PyDate.t) dummy_customer_data 0 90 42%Z
  = Ok ((None, None, []), 42%Z) /\
  exists result,
    monte_carlo_churn_prediction (D := PyDate.t) dummy_customer_data 1 (-1)
                                 42%Z
    = Ok (result, 42%Z) /\
    samples result = [score_default (events dummy_customer_data)].
Proof.
  split; [reflexivity |].
  unfold monte_carlo_churn_prediction, bind.
  rewrite (simulations_no_days (D := PyDate.t) dummy_customer_data _ (-1)
             (PyDate.mk 2024 6 15) (PyDate.mk 2024 6 16) 1)
    by (reflexivity || lia).
  eexists. split; reflexivity.
Qed.

Lemma no_parameter_validation_witness :
  ((-3 < 1)%Z /\
   monte_carlo_churn_prediction (D := PyDate.t) dummy_customer_data (-3) 90
                                7%Z
   = Ok ((None, None, []), 7%Z)) /\
  ((-7 < 0)%Z /\
   monte_carlo_churn_prediction (D := PyDate.t) dummy_customer_data 2 (-7) 7%Z
   = monte_carlo_churn_prediction (D := PyDate.t) dummy_customer_data 2 0 7%Z).
Proof.
  split; split; try lia.
  - apply (proj1 (no_parameter_validation (D := PyDate.t)
                    dummy_customer_data (-3) 90 7%Z)). lia.
  - apply (proj2 (no_parameter_validation (D := PyDate.t)
                    dummy_customer_data 2 (-7) 7%Z)). lia.
Defined.

Lemma forecast_samples_witness :
  exists result g',
    monte_carlo_churn_prediction (D := PyDate.t) dummy_customer_data 3 5 42%Z
    = Ok (result, g') /\
    Z.of_nat (length (samples result)) = 3%Z /\
    Forall (fun p => 0 <= p <= 1) (samples result).
Proof.
  destruct (monte_carlo_total (D := PyDate.t) dummy_customer_data 3 5
              (PyDate.mk 2024 6 15) 42%Z)
    as (result & g' & H).
  - reflexivity.
  - vm_compute. discriminate.
  - exists result, g'. split; [exact H |].
    destruct (forecast_samples dummy_customer_data 3 5 42%Z result g')
      as (Hlen & Hall & _); [lia | lia | exact H |].
    split; [exact Hlen | exact Hall].
Defined.

(** C6, as stated, fails: 9999-12-31 parses, but the day after it is beyond
    [datetime.max], so the first trial raises [OverflowError] and no sample
    is returned. *)
Lemma last_day_forecast_overflows :
  strptime "9999-12-31" = Some (PyDate.mk 9999 12 31) /\
  monte_carlo_churn_prediction (D := PyDate.t)
    (mk_customer (events dummy_customer_data) "9999-12-31") 1 0 42%Z
  = Raise OverflowError.
Proof. split; reflexivity. Qed.

Lemma zero_day_forecast_witness :
  exists result,
    monte_carlo_churn_prediction (D := PyDate.t) dummy_customer_data 4 0 42%Z
    = Ok (result, 42%Z) /\
    Z.of_nat (length (samples result)) = 4%Z /\
    Forall (fun p => p = score_default (events dummy_customer_data))
           (samples result).
Proof.
  apply (zero_day_forecast dummy_customer_data 4
           (PyDate.mk 2024 6 15) (PyDate.mk 2024 6 16) 42%Z).
  - reflexivity.
  - reflexivity.
  - lia.
Defined.

Lemma simulated_future_vocabulary_witness :
  exists evs g',
    simulate_days (score_default (events dummy_customer_data)) 3
                  (PyDate.mk 2024 6 16) [] 42%Z = Ok (evs, g') /\
    length evs = 3%nat /\
    Forall (fun ev => In (type ev) simulated_types) evs /\
    Forall (fun ev => type ev <> "upgrade_plan"%string) evs.
Proof.
  destruct (simulate_days_total
              (score_default (events dummy_customer_data)) 3
              (PyDate.mk 2024 6 16) [] 42%Z)
    as (evs & g' & H).
  - vm_compute. discriminate.
  - exists evs, g'. split; [exact H |].
    apply (simulated_future_vocabulary _ _ _ _ _ _ H).
Defined.

(** C9, as stated, fails: with [num_simulations = 0] the date is never
    parsed, and a customer whose date is not a date gets a result. *)
Lemma bad_date_unnoticed_without_trials :
  strptime (D := PyDate.t) "not-a-date" = None /\
  monte_carlo_churn_prediction (D := PyDate.t)
    (mk_customer (events dummy_customer_data) "not-a-date") 0 90 42%Z
  = Ok ((None, None, []), 42%Z).
Proof. split; reflexivity. Qed.

Lemma bad_date_fails_witness :
  strptime (D := PyDate.t) "15/06/2024" = None /\
  monte_carlo_churn_prediction (D := PyDate.t)
    (mk_customer (events dummy_customer_data) "15/06/2024") 100 90 42%Z
  = Raise ValueError.
Proof.
  split; [reflexivity |].
  apply (bad_date_fails (D := PyDate.t)
           (mk_customer (events dummy_customer_data) "15/06/2024") 100 90 42%Z).
  - reflexivity.
  - lia.
Defined.

(** * Further properties *)

(** ** More on the scorer *)

Lemma weight_at_nonneg (n i : nat) : 0 <= weight_at n i.
Proof.
  destruct n as [| [| k]]; cbn [weight_at]; try lra.
  assert (0 < INR (S k)) by (apply lt_0_INR; lia).
  pose proof (pos_INR i).
  assert (0 <= 0.9 / INR (S k))
    by (apply Rmult_le_pos; [lra | left; apply Rinv_0_lt_compat; assumption]).
  nra.
Qed.

Lemma magnitude_upper (ev : event) : magnitude ev <= 0.2.
Proof.
  unfold magnitude, score_event.
  repeat match goal with
         | |- context [if ?b then _ else _] => destruct b
         end; lra.
Qed.

Lemma magnitude_inactivity (a : event) :
  type a = "inactivity"%string -> magnitude a = 0.2.
Proof.
  intros Ha. unfold magnitude, score_event. rewrite Ha.
  cbn [String.eqb Ascii.eqb Bool.eqb orb]. lra.
Qed.

Lemma magnitude_unscored (ev : event) :
  ~ In (type ev) scored_types -> magnitude ev = 0.
Proof.
  intros Hout. unfold magnitude, score_event.
  repeat match goal with
         | |- context [String.eqb ?s ?t] =>
             destruct (String.eqb_spec s t) as [E | _];
             [exfalso; apply Hout; rewrite E; cbn; tauto |]
         end.
  cbn [orb]. reflexivity.
Qed.

Lemma wsum_monotone (W : nat -> R) (es es' : list event) :
  (forall i, 0 <= W i) ->
  Forall2 (fun e e' => magnitude e <= magnitude e') es es' ->
  forall k : nat, wsum W k es <= wsum W k es'.
Proof.
  intros HW H. induction H as [| e e' t t' He _ IH]; intros k; cbn [wsum].
  - lra.
  - specialize (IH (S k)). pose proof (HW k). nra.
Qed.

Lemma running_score_monotone (es es' : list event) :
  Forall2 (fun e e' => magnitude e <= magnitude e') es es' ->
  running_score es <= running_score es'.
Proof.
  intros H. rewrite !running_score_wsum.
  rewrite (Forall2_length H).
  apply wsum_monotone; [apply weight_at_nonneg | exact H].
Qed.

Lemma Forall2_skipn {A B : Type} (P : A -> B -> Prop) (n : nat) :
  forall (l : list A) (l' : list B),
    Forall2 P l l' -> Forall2 P (skipn n l) (skipn n l').
Proof.
  induction n as [| n IH]; intros l l' H; [exact H |].
  destruct H; cbn [skipn]; [constructor | apply IH; assumption].
Qed.

Lemma Forall2_slice_from {A B : Type} (P : A -> B -> Prop) (start : Z)
    (l : list A) (l' : list B) :
  Forall2 P l l' -> Forall2 P (slice_from start l) (slice_from start l').
Proof.
  intros H. unfold slice_from. rewrite (Forall2_length H).
  apply Forall2_skipn, H.
Qed.

Lemma Forall_skipn {A : Type} (P : A -> Prop) (n : nat) :
  forall l : list A, Forall P l -> Forall P (skipn n l).
Proof.
  induction n as [| n IH]; intros l H; [exact H |].
  destruct H; cbn [skipn]; [constructor | apply IH; assumption].
Qed.

Lemma Forall2_refl_middle (es1 es2 : list event) (e e' : event) :
  magnitude e <= magnitude e' ->
  Forall2 (fun x y => magnitude x <= magnitude y)
          (es1 ++ e :: es2) (es1 ++ e' :: es2).
Proof.
  intros He.
  assert (Hrefl : forall l : list event,
             Forall2 (fun x y => magnitude x <= magnitude y) l l).
  { induction l; constructor; [lra | assumption]. }
  apply Forall2_app; [apply Hrefl |]. constructor; [exact He | apply Hrefl].
Qed.





(** X1: with a window of at least one event the scorer reads the last
    [min w (length history)] events only: two histories that end with the
    same such events get the same result. *)
Theorem positive_window_reads_suffix (w : Z) (h1 h2 : list event) :
  (1 <= w)%Z ->
  skipn (length h1 - Nat.min (Z.to_nat w) (length h1)) h1
  = skipn (length h2 - Nat.min (Z.to_nat w) (length h2)) h2 ->
  predict_churn_risk_simplified_rnn h1 w
  = predict_churn_risk_simplified_rnn h2 w.
Proof.
  intros Hw Hsame.
  rewrite (windowing_suffix w h1), (windowing_suffix w h2) by exact Hw.
  rewrite Hsame. reflexivity.
Qed.

Lemma positive_window_reads_suffix_witness :
  predict_churn_risk_simplified_rnn
    [mk_event "2024-05-01" "inactivity"; mk_event "2024-06-14" "login";
     mk_event "2024-06-15" "make_purchase"] 2
  = predict_churn_risk_simplified_rnn
    [mk_event "2024-06-14" "login"; mk_event "2024-06-15" "make_purchase"] 2.
Proof.
  apply (positive_window_reads_suffix 2
           [mk_event "2024-05-01" "inactivity"; mk_event "2024-06-14" "login";
            mk_event "2024-06-15" "make_purchase"]
           [mk_event "2024-06-14" "login";
            mk_event "2024-06-15" "make_purchase"]).
  - lia.
  - reflexivity.
Defined.

(** X2: a window of zero or below does not shrink the considered events to
    none: [event_sequence[-w:]] then drops the [-w] oldest events and the
    scorer reads all the others - the whole history when [w = 0]. *)
Theorem nonpositive_window_drops_oldest (w : Z) (history : list event) :
  (w <= 0)%Z ->
  slice_from (- w) history = skipn (Z.to_nat (- w)) history /\
  predict_churn_risk_simplified_rnn history w
  = sigmoid (running_score (skipn (Z.to_nat (- w)) history)).
Proof.
  intros Hw.
  assert (Hs : slice_from (- w) history = skipn (Z.to_nat (- w)) history).
  { unfold slice_from.
    destruct (Z.ltb_spec (- w) 0) as [H | _]; [lia |].
    destruct (Z.le_gt_cases (- w) (Z.of_nat (length history))) as [Hle | Hgt].
    - f_equal. lia.
    - rewrite !skipn_all2 by lia. reflexivity. }
  split; [exact Hs |]. rewrite predict_sigmoid, Hs. reflexivity.
Qed.

Lemma nonpositive_window_drops_oldest_witness :
  slice_from (- (-1)) (events dummy_customer_data)
  = skipn 1 (events dummy_customer_data) /\
  predict_churn_risk_simplified_rnn (events dummy_customer_data) (-1)
  = sigmoid (running_score (skipn 1 (events dummy_customer_data))).
Proof.
  apply (nonpositive_window_drops_oldest (-1) (events dummy_customer_data)).
  lia.
Defined.


(** X4: events whose type is outside the scorer's [if]/[elif] chain - the
    [churned] marker of the event generator, for one - add nothing: a
    history made of such events only scores exactly 0.5, like the empty
    history. *)
Theorem unscored_types_score_half (history : list event) (w : Z) :
  Forall (fun ev => ~ In (type ev) scored_types) history ->
  predict_churn_risk_simplified_rnn history w = 0.5.
Proof.
  intros H. rewrite predict_sigmoid, <- sigmoid_0. f_equal.
  assert (Hs : Forall (fun ev => ~ In (type ev) scored_types)
                      (slice_from (- w) history))
    by (apply Forall_skipn, H).
  rewrite running_score_wsum.
  generalize (weight_at (length (slice_from (- w) history))) 0%nat.
  induction Hs as [| e t He _ IH]; intros W k; cbn [wsum]; [reflexivity |].
  rewrite (magnitude_unscored e He), IH. lra.
Qed.

Lemma unscored_types_score_half_witness :
  predict_churn_risk_simplified_rnn
    [mk_event "2024-06-14" "churned"; mk_event "2024-06-15" "refund"] 30
  = 0.5.
Proof.
  apply (unscored_types_score_half
           [mk_event "2024-06-14" "churned"; mk_event "2024-06-15" "refund"]
           30).
  repeat constructor; cbn; intros H;
    repeat (destruct H as [H | H]; [discriminate H |]); exact H.
Defined.

(** X5: inactivity is the riskiest type and an upgrade the safest, at every
    position: replacing any one event of a history by an [inactivity] event
    never lowers the score, and replacing it by an [upgrade_plan] event
    never raises it, whatever the window. *)
Theorem score_between_upgrade_and_inactivity
    (before after : list event) (ev a u : event) (w : Z) :
  type a = "inactivity"%string ->
  type u = "upgrade_plan"%string ->
  predict_churn_risk_simplified_rnn (before ++ u :: after) w
  <= predict_churn_risk_simplified_rnn (before ++ ev :: after) w
  <= predict_churn_risk_simplified_rnn (before ++ a :: after) w.
Proof.
  intros Ha Hu. rewrite !predict_sigmoid.
  pose proof (magnitude_lower ev). pose proof (magnitude_upper ev).
  split; apply sigmoid_monotone, running_score_monotone,
    Forall2_slice_from, Forall2_refl_middle.
  - rewrite (magnitude_upgrade u Hu). assumption.
  - rewrite (magnitude_inactivity a Ha). assumption.
Qed.

Lemma score_between_upgrade_and_inactivity_witness :
  predict_churn_risk_simplified_rnn
    ([mk_event "2024-06-01" "login"]
     ++ mk_event "2024-06-02" "upgrade_plan"
     :: [mk_event "2024-06-03" "login"]) 30
  <= predict_churn_risk_simplified_rnn
    ([mk_event "2024-06-01" "login"]
     ++ mk_event "2024-06-02" "support_query"
     :: [mk_event "2024-06-03" "login"]) 30
  <= predict_churn_risk_simplified_rnn
    ([mk_event "2024-06-01" "login"]
     ++ mk_event "2024-06-02" "inactivity"
     :: [mk_event "2024-06-03" "login"]) 30.
Proof.
  apply (score_between_upgrade_and_inactivity
           [mk_event "2024-06-01" "login"] [mk_event "2024-06-03" "login"]
           (mk_event "2024-06-02" "support_query")
           (mk_event "2024-06-02" "inactivity")
           (mk_event "2024-06-02" "upgrade_plan") 30);
    reflexivity.
Defined.


(** ** The intervention table *)


(** ** The forecaster's aggregates *)


Lemma sum_R_nonneg (l : list R) : Forall (fun x => 0 <= x) l -> 0 <= sum_R l.
Proof.
  induction 1 as [| p t Hp _ IH]; cbn [sum_R fold_right]; [lra |].
  fold (sum_R t). lra.
Qed.






Section ForecasterExtras.

Context {G : Type} {RS : RandomSource G}.
Context {D : Type} {DT : DateTimeLib D}.



(** Two continuations that agree on what [m] returns give the same run. *)
Lemma bind_agree {A B : Type} (m : M G A) (k1 k2 : A -> M G B) (g : G) :
  (forall a g1, m g = Ok (a, g1) -> k1 a g1 = k2 a g1) ->
  bind m k1 g = bind m k2 g.
Proof.
  intros H. unfold bind. destruct (m g) as [[a g1] | e]; [| reflexivity].
  apply H. reflexivity.
Qed.

(** A trial over 30 days or more does not see the history: the default
    window is filled by simulated events. *)
Lemma simulation_forgets_history (c1 c2 : customer) (risk : R) (days : Z)
    (g : G) :
  last_activity_date c1 = last_activity_date c2 ->
  (30 <= days)%Z ->
  simulation c1 risk days g = simulation c2 risk days g.
Proof.
  intros Hdate Hdays. unfold simulation. rewrite Hdate.
  apply bind_agree. intros d0 g1 _.
  apply bind_agree. intros d1 g2 _.
  apply bind_agree. intros evs g3 E.
  apply simulate_days_spec in E as (new & -> & Hlen & _). cbn [app].
  unfold score_default, default_history_length.
  rewrite !windowing_positive by lia. reflexivity.
Qed.

Lemma simulations_forget_history (c1 c2 : customer) (risk : R) (days : Z)
    (n : nat) :
  last_activity_date c1 = last_activity_date c2 ->
  (30 <= days)%Z ->
  forall (acc : list R) (g : G),
    simulations c1 risk days n acc g = simulations c2 risk days n acc g.
Proof.
  intros Hdate Hdays.
  induction n as [| k IH]; intros acc g; [reflexivity |].
  cbn [simulations]. unfold bind.
  rewrite (simulation_forgets_history c1 c2 risk days g Hdate Hdays).
  destruct (simulation c2 risk days g) as [[p g1] | e];
    [apply IH | reflexivity].
Qed.

(** X10: over 30 days or more the history reaches the forecast through the
    baseline risk only: two customers with the same last activity date and
    the same baseline score get the same forecast from the same random
    source, samples and errors alike, however their histories differ. *)
Theorem long_forecast_forgets_history (c1 c2 : customer)
    (num_simulations days : Z) (g : G) :
  last_activity_date c1 = last_activity_date c2 ->
  score_default (events c1) = score_default (events c2) ->
  (30 <= days)%Z ->
  monte_carlo_churn_prediction c1 num_simulations days g
  = monte_carlo_churn_prediction c2 num_simulations days g.
Proof.
  intros Hdate Hrisk Hdays. unfold monte_carlo_churn_prediction, bind.
  rewrite Hrisk.
  rewrite (simulations_forget_history c1 c2 _ days _ Hdate Hdays).
  reflexivity.
Qed.

(** The events of the day loop are stamped with consecutive days from the
    cursor on. *)
Lemma simulate_days_stamps (current_risk : R) (days : nat) :
  forall (d : D) (acc : list event) (g : G) (evs : list event) (g' : G),
    simulate_days current_risk days d acc g = Ok (evs, g') ->
    exists new,
      evs = acc ++ new /\
      forall (k : nat) (ev : event),
        nth_error new k = Some ev ->
        exists dk, days_ahead k d = Some dk /\ date ev = strftime dk.
Proof.
  induction days as [| n IH]; intros d acc g evs g' H.
  - injection H as <- _. exists []. rewrite app_nil_r. split; [reflexivity |].
    intros [| k] ev Hk; discriminate Hk.
  - cbn [simulate_days] in H.
    apply bind_Ok in H as (u & g1 & _ & H).
    apply bind_Ok in H as (ev0 & g2 & Hev & H).
    apply bind_Ok in H as (d' & g3 & Hd & H).
    apply or_raise_Ok in Hd as [Hd _]. cbn [fst] in Hd.
    assert (Hstamp : date ev0 = strftime d).
    { destruct (Rlt_dec u _) as [_ | _].
      - apply bind_Ok in Hev as (ty & g4 & _ & Hev).
        injection Hev as <- _. reflexivity.
      - injection Hev as <- _. reflexivity. }
    apply IH in H as (new & -> & Hnew).
    exists (ev0 :: new). rewrite <- app_assoc. split; [reflexivity |].
    intros [| k] ev Hk.
    + injection Hk as <-. exists d. split; [reflexivity | exact Hstamp].
    + cbn [nth_error] in Hk. destruct (Hnew k ev Hk) as (dk & Hdk & Hs).
      exists dk. cbn [days_ahead]. rewrite Hd. split; assumption.
Qed.

(** X11: the synthetic events of a trial are dated day by day from the
    cursor on: the [k]-th of them carries the cursor's date plus [k] days,
    formatted by [strftime]. *)
Theorem simulated_future_dates (current_risk : R) (days : nat) (d : D)
    (g : G) (evs : list event) (g' : G) (k : nat) (ev : event) :
  simulate_days current_risk days d [] g = Ok (evs, g') ->
  nth_error evs k = Some ev ->
  exists dk, days_ahead k d = Some dk /\ date ev = strftime dk.
Proof.
  intros H Hk.
  apply simulate_days_stamps in H as (new & -> & Hnew).
  apply (Hnew k ev Hk).
Qed.

End ForecasterExtras.

Section ForecasterFailures.

Context {G : Type} {RS : RandomSource G} {RL : RandomSourceLaws G}.
Context {D : Type} {DT : DateTimeLib D}.

Lemma simulate_days_overflow (current_risk : R) (days : nat) :
  forall (d : D) (acc : list event) (g : G),
    days_ahead days d = None ->
    simulate_days current_risk days d acc g = Raise OverflowError.
Proof.
  induction days as [| n IH]; intros d acc g Hd; [discriminate Hd |].
  cbn [days_ahead] in Hd. cbn [simulate_days].
  unfold bind at 1. unfold draw at 1.
  destruct (random g) as [u g1].
  destruct (day_event_total u (0.6 * (1 - current_risk)) (strftime d) g1)
    as (ev & g2 & Hev).
  unfold bind at 1. rewrite Hev.
  unfold bind at 1.
  destruct (add_one_day d) as [d' |]; cbn [or_raise ret raise];
    [apply IH, Hd | reflexivity].
Qed.

(** X12: with [num_simulations >= 1] and a date that parses, the forecaster
    walks the calendar one day further than it simulates: it returns when
    the calendar has [forecast_days + 1] days after the last activity date,
    and raises [OverflowError] when it has not - even when every simulated
    day itself exists. *)
Theorem forecast_needs_one_more_day (c : customer) (num_simulations days : Z)
    (d0 : D) (g : G) :
  strptime (last_activity_date c) = Some d0 ->
  (1 <= num_simulations)%Z ->
  (days_ahead (S (Z.to_nat days)) d0 <> None ->
   exists result g',
     monte_carlo_churn_prediction c num_simulations days g
     = Ok (result, g')) /\
  (days_ahead (S (Z.to_nat days)) d0 = None ->
   monte_carlo_churn_prediction c num_simulations days g
   = Raise OverflowError).
Proof.
  intros Hparse HN. split; intros Hdays.
  - apply (monte_carlo_total c num_simulations days d0 g Hparse Hdays).
  - unfold monte_carlo_churn_prediction.
    destruct (Z.to_nat num_simulations) as [| n] eqn:E; [lia |].
    cbn [simulations]. unfold bind at 1 2. unfold simulation.
    rewrite Hparse. unfold bind at 1. cbn [or_raise ret].
    cbn [days_ahead] in Hdays.
    destruct (add_one_day d0) as [d1 |]; unfold bind at 1;
      cbn [or_raise ret raise]; [| reflexivity].
    unfold bind at 1.
    rewrite (simulate_days_overflow _ _ d1 [] g Hdays). reflexivity.
Qed.

End ForecasterFailures.

(** ** The event generator *)

Section GeneratorFacts.

Context {G : Type} {RS : RandomSource G}.
Context {D : Type} {DT : DateTimeLib D} {CL : ClockLib G D}.

(** The event of one generated day: its stamp and its type. *)
Lemma generated_event (u activity_prob : R) (stamp : string) (g : G)
    (ev : event) (g1 : G) :
  (if Rlt_dec u activity_prob
   then event_type <- choice generated_activity_types ;;
        ret (mk_event stamp event_type)
   else ret (mk_event stamp "inactivity")) g = Ok (ev, g1) ->
  date ev = stamp /\ In (type ev) generated_types.
Proof.
  destruct (Rlt_dec u activity_prob) as [_ | _]; intros H.
  - apply bind_Ok in H as (ty & g2 & Hc & H).
    injection H as <- _. cbn [type date]. apply choice_In in Hc.
    split; [reflexivity |].
    unfold generated_types, generated_activity_types in *. cbn in *. tauto.
  - injection H as <- _. split; [reflexivity | cbn; tauto].
Qed.

(** What the day loop returns, entered with [churned = False]: either no
    churn and one event per remaining day, or a churn on some day [j] of
    the run, the events of the days up to [j] and the marker stamped like
    the last of them. *)
Lemma generate_days_spec (num_days : Z) (cp rate : R) (remaining : nat) :
  forall (day : Z) (d : D) (acc : list event) (g : G)
         (evs : list event) (ch : bool) (cd : option Z) (g' : G),
    generate_days num_days cp rate remaining day d acc false None g
    = Ok ((evs, ch, cd), g') ->
    exists daily,
      Forall (fun ev => In (type ev) generated_types) daily /\
      (forall k ev, nth_error daily k = Some ev ->
                    exists dk, days_ahead k d = Some dk /\
                               date ev = strftime dk) /\
      ((ch = false /\ cd = None /\ evs = acc ++ daily /\
        length daily = remaining) \/
       (ch = true /\
        exists (j : nat) (dj : D),
          (j < remaining)%nat /\ cd = Some (day + Z.of_nat j)%Z /\
          length daily = S j /\ days_ahead j d = Some dj /\
          evs = acc ++ daily ++ [churn_marker (strftime dj)])).
Proof.
  induction remaining as [| n IH]; intros day d acc g evs ch cd g' H.
  - injection H as <- <- <- _. exists [].
    split; [constructor |]. split; [intros [| k] ev Hk; discriminate Hk |].
    left. rewrite app_nil_r. auto.
  - cbn [generate_days] in H.
    apply bind_Ok in H as (u & g1 & _ & H).
    apply bind_Ok in H as (ev0 & g2 & Hev & H).
    apply generated_event in Hev as [Hstamp Htype].
    apply bind_Ok in H as (churns & g3 & _ & H).
    destruct churns.
    + injection H as <- <- <- _. exists [ev0].
      split; [constructor; [exact Htype | constructor] |].
      split.
      * intros [| [| k]] ev Hk; try discriminate Hk.
        injection Hk as <-. exists d. split; [reflexivity | exact Hstamp].
      * right. split; [reflexivity |]. exists 0%nat, d.
        rewrite Z.add_0_r, <- app_assoc.
        repeat split; try reflexivity. lia.
    + apply bind_Ok in H as (d' & g4 & Hd & H).
      apply or_raise_Ok in Hd as [Hd _]. cbn [fst] in Hd.
      apply IH in H as (daily & Hall & Hdates & Hshape).
      exists (ev0 :: daily).
      split; [constructor; assumption |].
      split.
      * intros [| k] ev Hk.
        -- injection Hk as <-. exists d. split; [reflexivity | exact Hstamp].
        -- cbn [nth_error] in Hk. destruct (Hdates k ev Hk) as (dk & Hdk & Hs).
           exists dk. cbn [days_ahead]. rewrite Hd. split; assumption.
      * destruct Hshape as [(-> & -> & -> & Hlen)
                           | (-> & j & dj & Hj & -> & Hlen & Hdj & ->)].
        -- left. rewrite <- app_assoc. cbn [app length].
           repeat split; try reflexivity. lia.
        -- right. split; [reflexivity |]. exists (S j), dj.
           rewrite <- !app_assoc. cbn [app length days_ahead]. rewrite Hd.
           repeat split; try reflexivity; try assumption; try lia.
           f_equal. lia.
Qed.

Lemma generate_customer_events_Ok (num_days : Z) (cp rate : R) (g : G)
    (r : list event * bool * option Z) (g' : G) :
  generate_customer_events num_days cp rate g = Ok (r, g') ->
  exists start,
    minus_days (fst (now g)) num_days = Some start /\
    generate_days num_days cp rate (Z.to_nat num_days) 0 start [] false None
                  (snd (now g)) = Ok (r, g').
Proof.
  unfold generate_customer_events. intros H.
  apply bind_Ok in H as (today & g1 & Hnow & H).
  unfold draw in Hnow. injection Hnow as Hnow.
  apply bind_Ok in H as (start & g2 & Hstart & H).
  apply or_raise_Ok in Hstart as [Hstart Hg]. cbn [fst snd] in Hstart, Hg.
  subst g2. rewrite Hnow. cbn [fst snd]. exists start. split; assumption.
Qed.

(** X13: when the generator reports no churn, it returns exactly one event
    per day of [num_days], no churn day, and every event is of an activity
    type or [inactivity]: there is no [churned] marker. *)
Theorem no_churn_one_event_per_day (num_days : Z) (cp rate : R) (g : G)
    (evs : list event) (cd : option Z) (g' : G) :
  generate_customer_events num_days cp rate g = Ok ((evs, false, cd), g') ->
  cd = None /\
  length evs = Z.to_nat num_days /\
  Forall (fun ev => In (type ev) generated_types) evs /\
  Forall (fun ev => type ev <> "churned"%string) evs.
Proof.
  intros H. apply generate_customer_events_Ok in H as (start & _ & H).
  apply generate_days_spec in H as (daily & Hall & _ & Hshape).
  destruct Hshape as [(_ & -> & -> & Hlen) | (Hch & _)]; [| discriminate Hch].
  cbn [app]. repeat split; try assumption.
  apply (Forall_impl _ (P := fun ev => In (type ev) generated_types));
    [| exact Hall].
  intros ev Hin Hc. rewrite Hc in Hin. cbn in Hin.
  repeat (destruct Hin as [Hin | Hin]; [discriminate Hin |]). exact Hin.
Qed.

(** X14: when the generator reports a churn, the churn day [j] is a day of
    the run ([0 <= j < num_days]); the events are those of the days 0 to
    [j], none of them a marker, followed by one [churned] marker that
    carries the date of the event of day [j]; a scan for the first
    [churned] event finds that marker. *)
Theorem churn_ends_with_marker (num_days : Z) (cp rate : R) (g : G)
    (evs : list event) (cd : option Z) (g' : G) :
  generate_customer_events num_days cp rate g = Ok ((evs, true, cd), g') ->
  exists (j : Z) (front : list event) (last_day : event),
    cd = Some j /\ (0 <= j < num_days)%Z /\
    Z.of_nat (length front) = j /\
    evs = front ++ [last_day; churn_marker (date last_day)] /\
    Forall (fun ev => In (type ev) generated_types) (front ++ [last_day]) /\
    find (fun e => (type e =? "churned")%string) evs
    = Some (churn_marker (date last_day)).
Proof.
  intros H. apply generate_customer_events_Ok in H as (start & _ & H).
  apply generate_days_spec in H as (daily & Hall & Hdates & Hshape).
  destruct Hshape as [(Hch & _) | (_ & j & dj & Hj & -> & Hlen & Hdj & ->)];
    [discriminate Hch |].
  cbn [app].
  destruct (exists_last (l := daily)) as (front & x & ->);
    [intros ->; discriminate Hlen |].
  rewrite length_app in Hlen. cbn [length] in Hlen.
  assert (Ej : nth_error (front ++ [x]) j = Some x).
  { rewrite nth_error_app2 by lia.
    replace (j - length front)%nat with 0%nat by lia. reflexivity. }
  destruct (Hdates j x Ej) as (dk & Hdk & Hstamp).
  rewrite Hdj in Hdk. injection Hdk as <-.
  exists (Z.of_nat j), front, x. rewrite Hstamp, <- app_assoc. cbn [app].
  repeat split; try assumption; try lia.
  change (front ++ [x; churn_marker (strftime dj)])
    with (front ++ [x] ++ [churn_marker (strftime dj)]).
  rewrite app_assoc.
  clear - Hall. induction Hall as [| e t He _ IH]; [reflexivity |].
  cbn [app find].
  destruct (String.eqb_spec (type e) "churned") as [Hc | _]; [| exact IH].
  rewrite Hc in He. cbn in He.
  repeat (destruct He as [He | He]; [discriminate He |]). contradiction.
Qed.

(** X15: the generated events are dated day by day from
    [now - num_days] on: the start is the clock's reading minus [num_days]
    days, and every event that is not the marker, at position [k], carries
    the start's date plus [k] days. *)
Theorem generated_event_dates (num_days : Z) (cp rate : R) (g : G)
    (evs : list event) (ch : bool) (cd : option Z) (g' : G) :
  generate_customer_events num_days cp rate g = Ok ((evs, ch, cd), g') ->
  exists start,
    minus_days (fst (now g)) num_days = Some start /\
    forall (k : nat) (ev : event),
      nth_error evs k = Some ev ->
      type ev <> "churned"%string ->
      exists dk, days_ahead k start = Some dk /\ date ev = strftime dk.
Proof.
  intros H. apply generate_customer_events_Ok in H as (start & Hstart & H).
  exists start. split; [exact Hstart |].
  apply generate_days_spec in H as (daily & _ & Hdates & Hshape).
  intros k ev Hk Hty.
  destruct Hshape as [(_ & _ & -> & _) | (_ & j & dj & _ & _ & _ & _ & ->)];
    cbn [app] in Hk.
  - apply (Hdates k ev Hk).
  - destruct (Nat.lt_ge_cases k (length daily)) as [Hlt | Hge].
    + rewrite nth_error_app1 in Hk by exact Hlt. apply (Hdates k ev Hk).
    + rewrite nth_error_app2 in Hk by exact Hge.
      destruct (k - length daily)%nat as [| [| m]]; try discriminate Hk.
      injection Hk as <-. exfalso. apply Hty. reflexivity.
Qed.

(** X16: with [num_days <= 0] the generator returns no event, no churn and
    no churn day without drawing a number, provided [now - num_days] is a
    date; when it is not, the generator raises [OverflowError] whatever
    [num_days] is. *)
Theorem no_days_no_events (num_days : Z) (cp rate : R) (g : G) :
  ((num_days <= 0)%Z ->
   minus_days (fst (now g)) num_days <> None ->
   generate_customer_events num_days cp rate g
   = Ok (([], false, None), snd (now g))) /\
  (minus_days (fst (now g)) num_days = None ->
   generate_customer_events num_days cp rate g = Raise OverflowError).
Proof.
  unfold generate_customer_events, bind, draw.
  destruct (now g) as [today g1]. cbn [fst snd].
  split.
  - intros Hn Hstart.
    destruct (minus_days today num_days) as [start |]; [| contradiction].
    cbn [or_raise ret]. replace (Z.to_nat num_days) with 0%nat by lia.
    reflexivity.
  - intros ->. reflexivity.
Qed.

End GeneratorFacts.

Section GeneratorFailures.

Context {G : Type} {RS : RandomSource G} {RL : RandomSourceLaws G}.
Context {D : Type} {DT : DateTimeLib D} {CL : ClockLib G D}.

Lemma generated_event_total (u activity_prob : R) (stamp : string) (g : G) :
  exists ev g1,
    (if Rlt_dec u activity_prob
     then event_type <- choice generated_activity_types ;;
          ret (mk_event stamp event_type)
     else ret (mk_event stamp "inactivity")) g = Ok (ev, g1).
Proof.
  destruct (Rlt_dec u activity_prob) as [_ | _].
  - destruct (choice_total generated_activity_types g) as (ty & g1 & Hc);
      [discriminate |].
    exists (mk_event stamp ty), g1. unfold bind. rewrite Hc. reflexivity.
  - eexists _, _. reflexivity.
Qed.

Lemma generate_days_raises (num_days : Z) (cp rate : R) (remaining : nat) :
  forall (day : Z) (d : D) (acc : list event) (ch : bool) (cd : option Z)
         (g : G) (e : exn),
    generate_days num_days cp rate remaining day d acc ch cd g = Raise e ->
    e = OverflowError.
Proof.
  induction remaining as [| n IH]; intros day d acc ch cd g e H;
    [discriminate H |].
  cbn [generate_days] in H.
  unfold bind at 1 in H. unfold draw at 1 in H.
  destruct (random g) as [u g1].
  destruct (generated_event_total u (rate * (1 - cp)) (strftime d) g1)
    as (ev & g2 & Hev).
  unfold bind at 1 in H. rewrite Hev in H.
  unfold bind at 1 in H.
  destruct ch; cbn [ret] in H.
  - unfold bind at 1 in H.
    destruct (add_one_day d) as [d' |]; cbn [or_raise ret raise] in H.
    + apply IH in H. exact H.
    + injection H as <-. reflexivity.
  - unfold bind at 1 in H. unfold draw at 1 in H.
    destruct (random g2) as [v g3]. cbn [ret] in H.
    destruct (Rlt_dec v (cp / IZR num_days)) as [_ | _]; [discriminate H |].
    unfold bind at 1 in H.
    destruct (add_one_day d) as [d' |]; cbn [or_raise ret raise] in H.
    + apply IH in H. exact H.
    + injection H as <-. reflexivity.
Qed.

(** X17: whatever the draws of a random source that keeps [_randbelow]
    below its bound, the only exception the generator can raise is
    [OverflowError], from a date that leaves the calendar. *)
Theorem generator_raises_overflow_only (num_days : Z) (cp rate : R) (g : G)
    (e : exn) :
  generate_customer_events num_days cp rate g = Raise e ->
  e = OverflowError.
Proof.
  unfold generate_customer_events, bind, draw.
  destruct (now g) as [today g1].
  destruct (minus_days today num_days) as [start |]; cbn [or_raise ret raise].
  - apply generate_days_raises.
  - intros H. injection H as <-. reflexivity.
Qed.

End GeneratorFailures.

(** ** Runs of the generator and of the forecaster *)

Ltac lcg_next :=
  match goal with
  | |- context [Lcg.next ?s] =>
      let v := eval vm_compute in (Lcg.next s) in
      change (Lcg.next s) with v
  end.

Ltac lcg_index :=
  match goal with
  | |- context [Z.to_nat (?a mod ?b)] =>
      let v := eval vm_compute in (Z.to_nat (a mod b)) in
      change (Z.to_nat (a mod b)) with v
  end.

Ltac date_step :=
  match goal with
  | |- context [PyClock.minus ?d ?n] =>
      let v := eval vm_compute in (PyClock.minus d n) in
      change (PyClock.minus d n) with v
  | |- context [PyDate.tomorrow ?d] =>
      let v := eval vm_compute in (PyDate.tomorrow d) in
      change (PyDate.tomorrow d) with v
  end.

Ltac decide_draw :=
  match goal with
  | |- context [Rlt_dec ?a ?b] =>
      destruct (Rlt_dec a b) as [? | ?]; [try (exfalso; lra) | try (exfalso; lra)]
  end.

Ltac run_lcg :=
  repeat first
    [ progress cbn [random randbelow now minus_days add_one_day strftime
                    lcg_source py_datetime stopped_clock clock_at ret or_raise raise
                    nth_error length fst snd]
    | progress unfold Lcg.lcg_random, Lcg.lcg_randbelow, Lcg.modulus,
        generated_activity_types, activity_types
    | progress cbv zeta
    | lcg_next
    | lcg_index
    | date_step
    | decide_draw ].

(** Three days at a churn propensity of 0.9, from the seed 42: three idle
    days, then the churn on day 2. *)
Example generate_churn_run :
  generate_customer_events (D := PyDate.t) 3 0.9 default_activity_base_rate
                           42%Z
  = Ok (([ mk_event "2024-06-12" "inactivity";
           mk_event "2024-06-13" "inactivity";
           mk_event "2024-06-14" "inactivity";
           mk_event "2024-06-14" "churned" ], true, Some 2%Z), 71666532%Z).
Proof.
  unfold generate_customer_events, default_activity_base_rate.
  change (Z.to_nat 3) with 3%nat. cbn [generate_days].
  unfold choice, bind, draw.
  run_lcg.
  reflexivity.
Qed.

(** Two days at a churn propensity of 0.02, from the seed 42: an idle day
    and a viewed feature, no churn. *)
Example generate_quiet_run :
  generate_customer_events (D := PyDate.t) 2 0.02 default_activity_base_rate
                           42%Z
  = Ok (([ mk_event "2024-06-13" "inactivity";
           mk_event "2024-06-14" "view_feature" ], false, None),
        908095735%Z).
Proof.
  unfold generate_customer_events, default_activity_base_rate.
  change (Z.to_nat 2) with 2%nat. cbn [generate_days].
  unfold choice, bind, draw.
  run_lcg.
  reflexivity.
Qed.

Lemma no_churn_one_event_per_day_witness :
  length [ mk_event "2024-06-13" "inactivity";
           mk_event "2024-06-14" "view_feature" ] = Z.to_nat 2 /\
  Forall (fun ev => type ev <> "churned"%string)
         [ mk_event "2024-06-13" "inactivity";
           mk_event "2024-06-14" "view_feature" ].
Proof.
  destruct (no_churn_one_event_per_day (D := PyDate.t) 2 0.02
              default_activity_base_rate 42%Z _ _ _ generate_quiet_run)
    as (_ & Hlen & _ & Hno).
  split; [exact Hlen | exact Hno].
Defined.

Lemma churn_ends_with_marker_witness :
  exists (j : Z) (front : list event) (last_day : event),
    Some 2%Z = Some j /\ (0 <= j < 3)%Z /\
    Z.of_nat (length front) = j /\
    [ mk_event "2024-06-12" "inactivity"; mk_event "2024-06-13" "inactivity";
      mk_event "2024-06-14" "inactivity"; mk_event "2024-06-14" "churned" ]
    = front ++ [last_day; churn_marker (date last_day)].
Proof.
  destruct (churn_ends_with_marker (D := PyDate.t) 3 0.9
              default_activity_base_rate 42%Z _ _ _ generate_churn_run)
    as (j & front & last_day & Hcd & Hj & Hlen & Hevs & _).
  exists j, front, last_day. repeat split; try assumption; lia.
Defined.

Lemma generated_event_dates_witness :
  exists start,
    minus_days PyClock.today 3 = Some start /\
    exists dk,
      days_ahead 1 start = Some dk /\
      date (mk_event "2024-06-13" "inactivity") = strftime dk.
Proof.
  destruct (generated_event_dates (D := PyDate.t) 3 0.9
              default_activity_base_rate 42%Z _ _ _ _ generate_churn_run)
    as (start & Hstart & Hdates).
  exists start. split; [exact Hstart |].
  apply (Hdates 1%nat (mk_event "2024-06-13" "inactivity"));
    [reflexivity | discriminate].
Defined.

Lemma no_days_no_events_witness :
  generate_customer_events (D := PyDate.t) (-4) 0.3
                           default_activity_base_rate 42%Z
  = Ok (([], false, None), 42%Z) /\
  generate_customer_events (D := PyDate.t)
                           (CL := clock_at (PyDate.mk 9999 12 31)) (-1) 0.3
                           default_activity_base_rate 42%Z
  = Raise OverflowError.
Proof.
  split.
  - refine (proj1 (no_days_no_events (D := PyDate.t) (-4) 0.3
                     default_activity_base_rate 42%Z) _ _);
      [lia | discriminate].
  - refine (proj2 (no_days_no_events (D := PyDate.t)
                     (CL := clock_at (PyDate.mk 9999 12 31)) (-1) 0.3
                     default_activity_base_rate 42%Z) _).
    reflexivity.
Defined.

Lemma generator_raises_overflow_only_witness :
  generate_customer_events (D := PyDate.t)
                           (CL := clock_at (PyDate.mk 1 1 3)) 5 0.02
                           default_activity_base_rate 42%Z
  = Raise OverflowError.
Proof.
  destruct (generate_customer_events (D := PyDate.t)
              (CL := clock_at (PyDate.mk 1 1 3)) 5 0.02
              default_activity_base_rate 42%Z) as [r | e] eqn:E.
  - exfalso.
    assert (Hrun : generate_customer_events (D := PyDate.t)
                     (CL := clock_at (PyDate.mk 1 1 3)) 5 0.02
                     default_activity_base_rate 42%Z = Raise OverflowError)
      by reflexivity.
    rewrite Hrun in E. discriminate E.
  - f_equal.
    apply (generator_raises_overflow_only (D := PyDate.t)
             (CL := clock_at (PyDate.mk 1 1 3)) 5 0.02
             default_activity_base_rate 42%Z e E).
Defined.



Lemma long_forecast_forgets_history_witness :
  monte_carlo_churn_prediction (D := PyDate.t)
    (mk_customer [mk_event "2024-06-15" "login"] "2024-06-15") 100 90 42%Z
  = monte_carlo_churn_prediction (D := PyDate.t)
    (mk_customer [mk_event "2024-03-01" "view_feature"] "2024-06-15")
    100 90 42%Z.
Proof.
  apply (long_forecast_forgets_history (D := PyDate.t)
           (mk_customer [mk_event "2024-06-15" "login"] "2024-06-15")
           (mk_customer [mk_event "2024-03-01" "view_feature"] "2024-06-15")
           100 90 42%Z).
  - reflexivity.
  - cbn [events]. unfold score_default. rewrite !predict_sigmoid.
    change (slice_from (- default_history_length)
              [mk_event "2024-06-15" "login"])
      with [mk_event "2024-06-15" "login"].
    change (slice_from (- default_history_length)
              [mk_event "2024-03-01" "view_feature"])
      with [mk_event "2024-03-01" "view_feature"].
    rewrite !running_score_single. reflexivity.
  - lia.
Defined.

Lemma simulated_future_dates_witness :
  exists dk,
    days_ahead 2 (PyDate.mk 2024 6 16) = Some dk /\
    date (mk_event "2024-06-18" "make_purchase") = strftime dk.
Proof.
  apply (simulated_future_dates (D := PyDate.t) 0.2 3 (PyDate.mk 2024 6 16)
           42%Z _ _ 2 _ simulate_three_days).
  reflexivity.
Defined.

Lemma forecast_needs_one_more_day_witness :
  (exists result g',
      monte_carlo_churn_prediction (D := PyDate.t) dummy_customer_data 2 3
                                   42%Z
      = Ok (result, g')) /\
  monte_carlo_churn_prediction (D := PyDate.t)
    (mk_customer (events dummy_customer_data) "9999-12-30") 1 1 42%Z
  = Raise OverflowError.
Proof.
  split.
  - refine (proj1 (forecast_needs_one_more_day (D := PyDate.t)
                     dummy_customer_data 2 3 (PyDate.mk 2024 6 15) 42%Z
                     eq_refl _) _);
      [lia | vm_compute; discriminate].
  - refine (proj2 (forecast_needs_one_more_day (D := PyDate.t)
                     (mk_customer (events dummy_customer_data) "9999-12-30")
                     1 1 (PyDate.mk 9999 12 30) 42%Z eq_refl _) _);
      [lia | reflexivity].
Defined.
